(** * The PTA (pintia.cn) ranking spider, [spider/pta/v2/pta.py]

    A shallow embedding of class [PTA] and of the part of class [Contest]
    ([type/contest.py]) that the spider touches.

    Python values coming out of [resp.json()] are modelled by [pyval];
    exceptions are values of [exn]; a method that mutates [self] is a
    function in the state-and-error monad [M], whose state survives a raised
    exception, as the attributes of a Python object do. *)

From Stdlib Require Import ZArith String Ascii List Lia Sorted Permutation.
From stdpp Require Import base option list strings gmap pretty.

#[local] Open Scope string_scope.
#[local] Open Scope Z_scope.
#[local] Open Scope list_scope.
Set Warnings "-register-all".

(** ** Python values *)

(** Hashable scalars, as they occur as dictionary keys.  Python hashes
    [True]/[False] like [1]/[0]; [hashkey] below maps them to [KInt]. *)
Inductive pykey : Type :=
| KNone
| KInt (z : Z)
| KStr (s : string).

#[global] Instance pykey_eq_dec : EqDecision pykey.
Proof. solve_decision. Defined.

(** The values a decoded JSON document is made of.  JSON numbers with a
    fraction are left out; a Python [str] is a sequence of one-byte
    characters. *)
Inductive pyval : Type :=
| PNone
| PBool (b : bool)
| PInt (z : Z)
| PStr (s : string)
| PList (xs : list pyval)
| PDict (kvs : list (pykey * pyval)).

Definition key_value (k : pykey) : pyval :=
  match k with
  | KNone => PNone
  | KInt z => PInt z
  | KStr s => PStr s
  end.

(** ** Exceptions and results *)

Inductive exn : Type :=
| KeyError (key : pyval)
| TypeError (msg : string)
| AttributeError (msg : string)
| ValueError (msg : string)
| Exception (msg : string)
| ClientError (msg : string).

Inductive result (A : Type) : Type :=
| Ok (a : A)
| Err (e : exn).
Arguments Ok {A} a.
Arguments Err {A} e.

Definition is_ok {A} (r : result A) : bool :=
  match r with Ok _ => true | Err _ => false end.

#[global] Instance result_ret : MRet result := λ A a, Ok a.
#[global] Instance result_bind : MBind result :=
  λ A B f m, match m with Ok a => f a | Err e => Err e end.

(** ** Insertion-ordered dictionaries

    A Python [dict] keeps its keys in insertion order; assigning to a key
    that is present keeps its place. *)
Section dict.
Context {K V : Type} `{EqDecision K}.

Fixpoint dict_get (k : K) (d : list (K * V)) : option V :=
  match d with
  | [] => None
  | (k', v) :: d' => if decide (k = k') then Some v else dict_get k d'
  end.

Fixpoint dict_set (k : K) (v : V) (d : list (K * V)) : list (K * V) :=
  match d with
  | [] => [(k, v)]
  | (k', v') :: d' =>
      if decide (k = k') then (k', v) :: d' else (k', v') :: dict_set k v d'
  end.

Definition dict_keys (d : list (K * V)) : list K := d.*1.
Definition dict_values (d : list (K * V)) : list V := d.*2.
End dict.

(** ** Built-in operations on values *)

Definition hashkey (v : pyval) : result pykey :=
  match v with
  | PNone => Ok KNone
  | PBool b => Ok (KInt (Z.b2z b))
  | PInt z => Ok (KInt z)
  | PStr s => Ok (KStr s)
  | PList _ => Err (TypeError "unhashable type: 'list'")
  | PDict _ => Err (TypeError "unhashable type: 'dict'")
  end.

(** [o[k]] for a string literal [k]. *)
Definition getitem (o : pyval) (k : string) : result pyval :=
  match o with
  | PDict d =>
      match dict_get (KStr k) d with
      | Some v => Ok v
      | None => Err (KeyError (PStr k))
      end
  | PList _ => Err (TypeError "list indices must be integers or slices, not str")
  | PStr _ => Err (TypeError "string indices must be integers, not 'str'")
  | _ => Err (TypeError "object is not subscriptable")
  end.

(** [o[k] = v] for a value [o] that was read with a string subscript before,
    hence a dictionary in every call the spider makes. *)
Definition setitem (o : pyval) (k v : pyval) : result pyval :=
  match o with
  | PDict d => key ← hashkey k; Ok (PDict (dict_set key v d))
  | _ => Err (TypeError "object does not support item assignment")
  end.

Fixpoint string_chars (s : string) : list pyval :=
  match s with
  | EmptyString => []
  | String c s' => PStr (String c EmptyString) :: string_chars s'
  end.

(** [for x in o]. *)
Definition py_iter (o : pyval) : result (list pyval) :=
  match o with
  | PList xs => Ok xs
  | PDict d => Ok (key_value <$> dict_keys d)
  | PStr s => Ok (string_chars s)
  | _ => Err (TypeError "object is not iterable")
  end.

(** [o.items()]. *)
Definition py_items (o : pyval) : result (list (pykey * pyval)) :=
  match o with
  | PDict d => Ok d
  | _ => Err (AttributeError "object has no attribute 'items'")
  end.

(** [bool(o)]. *)
Definition py_bool (o : pyval) : bool :=
  match o with
  | PNone => false
  | PBool b => b
  | PInt z => negb (z =? 0)
  | PStr s => negb (String.eqb s "")
  | PList xs => negb (bool_decide (xs = []))
  | PDict d => negb (bool_decide (d = []))
  end.

(** [ord(o)]. *)
Definition py_ord (o : pyval) : result Z :=
  match o with
  | PStr (String c EmptyString) => Ok (Z.of_nat (nat_of_ascii c))
  | PStr _ => Err (TypeError "ord() expected a character")
  | _ => Err (TypeError "ord() expected string of length 1")
  end.

(** [o == s] for a string literal [s]. *)
Definition py_eq_str (o : pyval) (s : string) : bool :=
  match o with
  | PStr s' => String.eqb s' s
  | _ => false
  end.

(** ** The state-and-error monad *)

Definition M (S A : Type) : Type := S → result A * S.

#[global] Instance M_ret {S} : MRet (M S) := λ A a s, (Ok a, s).
#[global] Instance M_bind {S} : MBind (M S) :=
  λ A B f m s,
    match m s with
    | (Ok a, s') => f a s'
    | (Err e, s') => (Err e, s')
    end.

Definition raise {S A} (e : exn) : M S A := λ s, (Err e, s).
Definition get {S} : M S S := λ s, (Ok s, s).
Definition modify {S} (f : S → S) : M S unit := λ s, (Ok (), f s).
Definition liftR {S A} (r : result A) : M S A := λ s, (r, s).

(** [try: m  except Exception as e: handler e]. *)
Definition try_except {S A} (m : M S A) (handler : exn → M S A) : M S A :=
  λ s,
    match m s with
    | (Ok a, s') => (Ok a, s')
    | (Err e, s') => handler e s'
    end.

(** A [for] loop whose body may [return] from the enclosing function. *)
Inductive control (A : Type) : Type :=
| Continue
| Return (a : A).
Arguments Continue {A}.
Arguments Return {A} a.

Fixpoint for_return {S A B} (xs : list A) (body : A → M S (control B))
  : M S (option B) :=
  match xs with
  | [] => mret None
  | x :: xs' =>
      c ← body x;
      match c with
      | Continue => for_return xs' body
      | Return b => mret (Some b)
      end
  end.

(** A [for] loop threading the local variables [acc]. *)
Fixpoint for_fold {S A B} (xs : list A) (acc : B) (body : B → A → M S B)
  : M S B :=
  match xs with
  | [] => mret acc
  | x :: xs' => acc' ← body acc x; for_fold xs' acc' body
  end.

(** The same loop for a body without effects on [self]. *)
Fixpoint fold_result {A B} (xs : list A) (acc : B) (body : B → A → result B)
  : result B :=
  match xs with
  | [] => Ok acc
  | x :: xs' => acc' ← body acc x; fold_result xs' acc' body
  end.

(** ** The domain model

    [Contest] is the class of [type/contest.py].  [Color], [Team] and
    [Submission] are declared in other modules of the package; their
    records list the attributes the spider assigns. *)

(** Modelled from the spec: the verdict constants [constants.RESULT_*]
    ("accepted / wrong-answer / unknown"); their module [constants] is not
    modelled. *)
Inductive verdict : Type :=
| RESULT_ACCEPTED
| RESULT_WRONG_ANSWER
| RESULT_UNKNOWN.

Module Color.
Record t : Type := mk { background_color : pyval; color : pyval }.
End Color.

Module Contest.
Record t : Type := mk {
  contest_name : string;
  start_time : Z;
  end_time : Z;
  frozen_time : Z;
  penalty : Z;
  problem_quantity : Z;
  problem_id : list pyval;
  group : pyval;
  organization : string;
  status_time_display : pyval;
  medal : pyval;
  balloon_color : list Color.t;
  logo : pyval
}.

(** [Contest()] with every argument at its default. *)
Definition init : t :=
  mk "" 0 0 0 0 0 [] PNone "" PNone (PDict []) [] PNone.

Definition set_start_time (v : Z) (c : t) : t :=
  mk (contest_name c) v (end_time c) (frozen_time c) (penalty c)
     (problem_quantity c) (problem_id c) (group c) (organization c)
     (status_time_display c) (medal c) (balloon_color c) (logo c).
Definition set_end_time (v : Z) (c : t) : t :=
  mk (contest_name c) (start_time c) v (frozen_time c) (penalty c)
     (problem_quantity c) (problem_id c) (group c) (organization c)
     (status_time_display c) (medal c) (balloon_color c) (logo c).
Definition set_problem_quantity (v : Z) (c : t) : t :=
  mk (contest_name c) (start_time c) (end_time c) (frozen_time c) (penalty c)
     v (problem_id c) (group c) (organization c)
     (status_time_display c) (medal c) (balloon_color c) (logo c).
Definition set_problem_id (v : list pyval) (c : t) : t :=
  mk (contest_name c) (start_time c) (end_time c) (frozen_time c) (penalty c)
     (problem_quantity c) v (group c) (organization c)
     (status_time_display c) (medal c) (balloon_color c) (logo c).
Definition set_group (v : pyval) (c : t) : t :=
  mk (contest_name c) (start_time c) (end_time c) (frozen_time c) (penalty c)
     (problem_quantity c) (problem_id c) v (organization c)
     (status_time_display c) (medal c) (balloon_color c) (logo c).
Definition set_balloon_color (v : list Color.t) (c : t) : t :=
  mk (contest_name c) (start_time c) (end_time c) (frozen_time c) (penalty c)
     (problem_quantity c) (problem_id c) (group c) (organization c)
     (status_time_display c) (medal c) v (logo c).

(** [chr(ord('A') + i)] for [i] up to 190, where the one-byte characters of
    the model end (code 255).  Beyond that Python goes on with wider
    characters, which the model does not have, and [chr] raises [ValueError]
    from code 1114112. *)
Definition letter (i : nat) : pyval :=
  PStr (String (ascii_of_nat (65 + i)) EmptyString).

(** The labels are those of Python for a [problem_quantity] up to 191, the
    range of [letter]; the statements about this method keep to it. *)
Definition fill_problem_id (c : t) : t :=
  set_problem_id (letter <$> seq 0 (Z.to_nat (problem_quantity c))) c.

Definition default_balloon_color_list : list Color.t :=
  [ Color.mk (PStr "rgba(189, 14, 14, 0.7)") (PStr "#fff");
    Color.mk (PStr "rgba(255, 144, 228, 0.7)") (PStr "#fff");
    Color.mk (PStr "rgba(255, 255, 255, 0.7)") (PStr "#000");
    Color.mk (PStr "rgba(38, 185, 60, 0.7)") (PStr "#fff");
    Color.mk (PStr "rgba(239, 217, 9, 0.7)") (PStr "#000");
    Color.mk (PStr "rgba(243, 88, 20, 0.7)") (PStr "#fff");
    Color.mk (PStr "rgba(12, 76, 138, 0.7)") (PStr "#fff");
    Color.mk (PStr "rgba(156, 155, 155, 0.7)") (PStr "#fff");
    Color.mk (PStr "rgba(4, 154, 115, 0.7)") (PStr "#fff");
    Color.mk (PStr "rgba(159, 19, 236, 0.7)") (PStr "#fff");
    Color.mk (PStr "rgba(42, 197, 202, 0.7)") (PStr "#fff");
    Color.mk (PStr "rgba(142, 56, 54, 0.7)") (PStr "#fff");
    Color.mk (PStr "rgba(0, 0, 0, 0.7)") (PStr "#fff") ].

(** [l[:n]]: a negative [n] counts from the end. *)
Definition slice_to {A} (l : list A) (n : Z) : list A :=
  if 0 <=? n then take (Z.to_nat n) l
  else take (Z.to_nat (Z.of_nat (length l) + n)) l.

Definition fill_balloon_color (c : t) : t :=
  set_balloon_color (slice_to default_balloon_color_list (problem_quantity c))
                    c.

(** The methods of the class, which take no argument besides [self].  The
    class has no base class and no [__getattr__]. *)
Definition methods : list (string * (t → t)) :=
  [ ("fill_problem_id", fill_problem_id);
    ("fill_balloon_color", fill_balloon_color) ].

(** The other names an instance answers to: the attributes set by
    [__init__] and the properties [__dict__] and [__json__]. *)
Definition data_attributes : list string :=
  [ "contest_name"; "start_time"; "end_time"; "frozen_time"; "penalty";
    "problem_quantity"; "problem_id"; "group"; "organization";
    "status_time_display"; "medal"; "balloon_color"; "logo";
    "__dict__"; "__json__" ].

(** [c.name(args)]: the attribute is looked up first; a name the instance
    does not answer to raises [AttributeError]. *)
Definition call {A} (name : string) (args : list A) (c : t) : result t :=
  match dict_get name methods with
  | Some body =>
      match args with
      | [] => Ok (body c)
      | _ =>
          Err (TypeError (name +:+ "() takes 1 positional argument but "
                            +:+ pretty (S (length args)) +:+ " were given"))
      end
  | None =>
      if bool_decide (name ∈ data_attributes) then
        Err (TypeError "object is not callable")
      else
        Err (AttributeError
               ("'Contest' object has no attribute '" +:+ name +:+ "'"))
  end.
End Contest.

Module Team.
Record t : Type := mk {
  team_id : string;
  name : string;
  organization : string;
  members : pyval;
  group : pyval;
  girl : bool
}.
End Team.

Module Submission.
Record t : Type := mk {
  team_id : string;
  status : verdict;
  problem_id : Z;
  timestamp : Z;
  submission_id : pyval
}.
End Submission.

(** [Teams] is used as a dictionary from team id to [Team], [Submissions] as
    a list of [Submission]. *)
Abbreviation Teams := (list (string * Team.t)).
Abbreviation Submissions := (list Submission.t).

(** ** [list.sort(key=...)]

    Python's sort is stable.  A stable sort of a list is unique
    ([stable_sort_unique] below), so insertion sort computes what
    [list.sort] returns. *)
Section sort.
Context {A : Type} (key : A → Z).

Fixpoint insert_by (x : A) (l : list A) : list A :=
  match l with
  | [] => [x]
  | y :: l' => if key x <=? key y then x :: y :: l' else y :: insert_by x l'
  end.

Fixpoint list_sort_by (l : list A) : list A :=
  match l with
  | [] => []
  | x :: l' => insert_by x (list_sort_by l')
  end.

Definition key_le (x y : A) : Prop := key x ≤ key y.
Definition with_key (k : Z) (l : list A) : list A :=
  filter (λ x, key x = k) l.
End sort.

(** ** [range] and [islice] *)

Fixpoint range_fuel (fuel : nat) (i stop step : nat) : list nat :=
  match fuel with
  | O => []
  | S fuel' =>
      if decide (i < stop)%nat then i :: range_fuel fuel' (i + step) stop step
      else []
  end.

(** [range(start, stop, step)] for a positive [step]: at most [stop - start]
    numbers are produced, so that much fuel is enough. *)
Definition range (start stop step : nat) : list nat :=
  range_fuel (stop - start) start stop step.

(** [list(islice(l, i, j))]. *)
Definition islice {A} (l : list A) (i j : nat) : list A :=
  take (j - i) (drop i l).

(** ** The remote service and the trace of a run *)

(** What [session.get(url, ...)] followed by [resp.json()] can give: a fault
    of the transport (timeout, connection error), or a response with a status
    and a body that decodes to a value or fails to decode. *)
Inductive response : Type :=
| TransportFault (e : exn)
| HttpResponse (status : Z) (json : result pyval).

(** The observable actions of a run, in the order they happen. *)
Inductive event : Type :=
| Get (url : string)
| Sleep (seconds : Z)
| LogWarning (msg : string)
| LogInfo (msg : string).

#[global] Instance event_eq_dec : EqDecision event.
Proof. solve_decision. Defined.

(** ** Class [PTA] *)

Record PTA : Type := mkPTA {
  _contest : Contest.t;
  _contest_id : string;
  _teams : Teams;
  _runs : Submissions;
  _team_ids : gset string;
  _problem_ids : list (pykey * Z)
}.

Definition kTimeOut : Z := 10.
Definition kRetryTimes : nat := 5.
Definition kAcScore : Z := 300.

(** [PTA(contest, contest_id)]. *)
Definition PTA_init (contest : Contest.t) (contest_id : string) : PTA :=
  mkPTA contest contest_id [] [] ∅ [].

Definition set_contest (f : Contest.t → Contest.t) (self : PTA) : PTA :=
  mkPTA (f (_contest self)) (_contest_id self) (_teams self) (_runs self)
        (_team_ids self) (_problem_ids self).
Definition set_teams (v : Teams) (self : PTA) : PTA :=
  mkPTA (_contest self) (_contest_id self) v (_runs self)
        (_team_ids self) (_problem_ids self).
Definition set_runs (v : Submissions) (self : PTA) : PTA :=
  mkPTA (_contest self) (_contest_id self) (_teams self) v
        (_team_ids self) (_problem_ids self).
Definition set_team_ids (v : gset string) (self : PTA) : PTA :=
  mkPTA (_contest self) (_contest_id self) (_teams self) (_runs self)
        v (_problem_ids self).
Definition set_problem_ids (v : list (pykey * Z)) (self : PTA) : PTA :=
  mkPTA (_contest self) (_contest_id self) (_teams self) (_runs self)
        (_team_ids self) v.

(** The object together with the trace of the run so far. *)
Record Env : Type := mkEnv {
  self : PTA;
  trace : list event
}.

(** [self._contest.name(args)] as a statement. *)
Definition contest_call {A} (name : string) (args : list A) : M PTA unit :=
  λ self,
    match Contest.call name args (_contest self) with
    | Ok c => (Ok (), set_contest (λ _, c) self)
    | Err e => (Err e, self)
    end.

Definition lift_self {A} (m : M PTA A) : M Env A :=
  λ s, let '(r, self') := m (self s) in (r, mkEnv self' (trace s)).

Definition emit (e : event) : M Env unit :=
  modify (λ s, mkEnv (self s) (trace s ++ [e])).

Definition is_request (e : event) : bool :=
  match e with Get _ => true | _ => false end.

(** How many requests for [url] the trace holds. *)
Definition requests_to (url : string) (tr : list event) : nat :=
  length (filter (λ e, e = Get url) tr).

(** The body of the two [async with] blocks of [_fetch_rank_by_uri], given
    the answer of the service: a fault is raised as it is, a status other than
    200 raises [Exception], otherwise the decoded body is returned. *)
Definition response_json (url : string) (resp : response) : result pyval :=
  match resp with
  | TransportFault e => Err e
  | HttpResponse status json =>
      if bool_decide (status ≠ 200) then
        Err (Exception ("Failed to fetch " +:+ url +:+ ", status: "
                          +:+ pretty status))
      else json
  end.

(** [d[k]] on a dictionary of the object. *)
Definition dict_subscript {V} (d : list (pykey * V)) (k : pyval) : result V :=
  key ← hashkey k;
  match dict_get key d with
  | Some v => Ok v
  | None => Err (KeyError k)
  end.

(** [list.extend] with the result of a coroutine that may be [None]. *)
Definition extend {A} (l : list A) (x : option (list A)) : result (list A) :=
  match x with
  | Some l' => Ok (l ++ l')
  | None => Err (TypeError "'NoneType' object is not iterable")
  end.

(** [await asyncio.gather] over the list [tasks].  The tasks are run to completion one
    after the other in the order of the list, which is one of the schedules
    the event loop may choose; when every task succeeds the list of results is
    in task order under every schedule. *)
Fixpoint gather {S A} (tasks : list (M S A)) : M S (list A) :=
  match tasks with
  | [] => mret []
  | t :: tasks' => a ← t; rest ← gather tasks'; mret (a :: rest)
  end.

(** What can be handed to [asyncio.run] as positional arguments. *)
Inductive pyarg (S : Type) : Type :=
| ArgCoroutineFunction (f : bool → M S unit)
| ArgCoroutine (c : M S unit)
| ArgBool (b : bool).
Arguments ArgCoroutineFunction {S} f.
Arguments ArgCoroutine {S} c.
Arguments ArgBool {S} b.

(** [asyncio.run(main, *, debug=None)] of the standard library: one
    positional parameter, the rest keyword-only, so binding two positional
    arguments fails before the body of [run] is entered; a [main] that is not
    a coroutine object is refused with [ValueError]. *)
Definition asyncio_run {S} (args : list (pyarg S)) : M S unit :=
  match args with
  | [] => raise (TypeError "run() missing 1 required positional argument: 'main'")
  | [ArgCoroutine c] => c
  | [_] => raise (ValueError "a coroutine was expected")
  | _ =>
      raise (TypeError ("run() takes 1 positional argument but "
                          +:+ pretty (length args) +:+ " were given"))
  end.

Section spider.
(** [repr] of a list or dictionary, which [str] falls back to. *)
Variable py_repr : pyval → string.
(** [utils.get_timestamp_from_iso8601], of a module that is not modelled:
    epoch seconds of an ISO 8601 string, or an exception. *)
Variable get_timestamp_from_iso8601 : pyval → result Z.
(** The remote service: the answer to the [n]-th request (counted from 0)
    for [url]. *)
Variable remote : string → nat → response.

(** [str(o)]. *)
Definition py_str (o : pyval) : string :=
  match o with
  | PNone => "None"
  | PBool true => "True"
  | PBool false => "False"
  | PInt z => pretty z
  | PStr s => s
  | PList _ | PDict _ => py_repr o
  end.

Definition _fetch_rank_by_uri (path : string) : M Env pyval :=
  s ← get;
  let url := "https://pintia.cn/api/competitions/"
               +:+ _contest_id (self s) +:+ "/" +:+ path in
  emit (Get url);;
  liftR (response_json url (remote url (requests_to url (trace s)))).

Definition _fetch_rank : M Env pyval :=
  _fetch_rank_by_uri "xcpc-rankings".

Definition _fetch_groups : M Env pyval :=
  _fetch_rank_by_uri "groups".

Definition _fetch_team_submissions (team_id : string) : M Env pyval :=
  _fetch_rank_by_uri
    ("xcpc-rankings-team-submissions?team_fid=" +:+ team_id).

(** The loop variable is named [group] like the dictionary created before
    the loop: each iteration rebinds [group] to the record at hand, and
    [group[fid] = name] stores into that record. *)
Definition _parse_groups (data : pyval) : M PTA unit :=
  let group := PDict [] in
  groups ← liftR (getitem data "groups");
  records ← liftR (py_iter groups);
  group ← liftR (fold_result records group (λ _ group,
    name ← getitem group "name";
    fid ← getitem group "fid";
    setitem group fid name));
  modify (set_contest (Contest.set_group group)).

(** One round of the loop of [_parse_contest]; [problem_ids] is the local
    dictionary, the labels and colours go to the contest object. *)
Definition _parse_contest_problem (problem_ids : list (pykey * Z))
    (item : pykey * pyval) : M PTA (list (pykey * Z)) :=
  let '(p_id, p) := item in
  label ← liftR (getitem p "label");
  balloon_rgb ← liftR (getitem p "balloonRgb");
  modify (set_contest (λ c,
    Contest.set_problem_id (Contest.problem_id c ++ [label]) c));;
  contest_call "append_balloon_color" [Color.mk balloon_rgb (PStr "#000")];;
  ord_label ← liftR (py_ord label);
  mret (dict_set p_id (ord_label - 65) problem_ids).

Definition _parse_contest (data : pyval) : M PTA unit :=
  competitionBasicInfo ← liftR (getitem data "competitionBasicInfo");
  startAt ← liftR (getitem competitionBasicInfo "startAt");
  start_time ← liftR (get_timestamp_from_iso8601 startAt);
  modify (set_contest (Contest.set_start_time start_time));;
  endAt ← liftR (getitem competitionBasicInfo "endAt");
  end_time ← liftR (get_timestamp_from_iso8601 endAt);
  modify (set_contest (Contest.set_end_time end_time));;
  xcpcRankings ← liftR (getitem data "xcpcRankings");
  problemInfoByProblemSetProblemId ←
    liftR (getitem xcpcRankings "problemInfoByProblemSetProblemId");
  modify (set_contest (Contest.set_problem_id []));;
  modify (set_contest (Contest.set_balloon_color []));;
  items ← liftR (py_items problemInfoByProblemSetProblemId);
  problem_ids ← for_fold items [] _parse_contest_problem;
  modify (set_contest (λ c,
    Contest.set_problem_quantity
      (Z.of_nat (length (Contest.problem_id c))) c));;
  modify (set_problem_ids problem_ids).

(** One round of the loop of [_parse_teams] on the locals [teams] and
    [team_ids]. *)
Definition _parse_teams_record (acc : Teams * gset string) (r : pyval)
  : result (Teams * gset string) :=
  let '(teams, team_ids) := acc in
  teamFid ← getitem r "teamFid";
  let team_id := py_str teamFid in
  team_info ← getitem r "teamInfo";
  teamName ← getitem team_info "teamName";
  let team_name := py_str teamName in
  members ← getitem team_info "memberNames";
  schoolName ← getitem team_info "schoolName";
  let school_name := py_str schoolName in
  excluded_value ← getitem team_info "excluded";
  let excluded := py_bool excluded_value in
  girlMajor_value ← getitem team_info "girlMajor";
  let girlMajor := py_bool girlMajor_value in
  group_fids ← getitem team_info "groupFids";
  if excluded : bool then Ok (teams, team_ids)
  else
    let team := Team.mk team_id team_name school_name members group_fids
                        girlMajor in
    Ok (dict_set team_id team teams, team_ids ∪ {[team_id]}).

Definition _parse_teams (data : pyval) : M PTA unit :=
  xcpcRankings ← liftR (getitem data "xcpcRankings");
  rankings ← liftR (getitem xcpcRankings "rankings");
  rs ← liftR (py_iter rankings);
  '(teams, team_ids) ← liftR (fold_result rs ([], ∅) _parse_teams_record);
  modify (set_teams teams);;
  modify (set_team_ids team_ids).

(** The inner loop of [_make_fake_runs]: four reads, nothing else. *)
Definition _make_fake_runs_status (runs : Submissions)
    (item : pykey * pyval) : result Submissions :=
  let '(p_id, status) := item in
  score ← getitem status "status";
  validSubmitCount ← getitem status "validSubmitCount";
  acceptTime ← getitem status "acceptTime";
  submitCountSnapshot ← getitem status "submitCountSnapshot";
  Ok runs.

Definition _make_fake_runs_record (runs : Submissions) (r : pyval)
  : result Submissions :=
  teamInfo ← getitem r "teamInfo";
  teamFid ← getitem teamInfo "teamFid";
  let team_id := py_str teamFid in
  details ← getitem r "problemSubmissionDetailsByProblemSetProblemId";
  items ← py_items details;
  fold_result items runs _make_fake_runs_status.

Definition _make_fake_runs (data : pyval) : M PTA unit :=
  xcpcRankings ← liftR (getitem data "xcpcRankings");
  rankings ← liftR (getitem xcpcRankings "rankings");
  let runs : Submissions := [] in
  rs ← liftR (py_iter rankings);
  runs ← liftR (fold_result rs runs _make_fake_runs_record);
  modify (set_runs runs).

Definition _parse_status (status : pyval) : verdict :=
  if py_eq_str status "ACCEPTED" then RESULT_ACCEPTED
  else if py_eq_str status "WRONG_ANSWER" then RESULT_WRONG_ANSWER
  else RESULT_UNKNOWN.

(** One round of the loop of [_parse_team_runs]. *)
Definition _parse_team_runs_record (problem_ids : list (pykey * Z))
    (team_id : string) (runs : Submissions) (submission : pyval)
  : result Submissions :=
  status_value ← getitem submission "status";
  let status := _parse_status status_value in
  problemSetProblemId ← getitem submission "problemSetProblemId";
  problem_id ← dict_subscript problem_ids problemSetProblemId;
  submitAt ← getitem submission "submitAt";
  timestamp ← get_timestamp_from_iso8601 submitAt;
  submission_id ← getitem submission "submissionId";
  let run := Submission.mk team_id status problem_id timestamp
                           submission_id in
  Ok (runs ++ [run]).

Definition _parse_team_runs (data : pyval) (team_id : string)
  : M PTA Submissions :=
  self ← get;
  submissions ← liftR (getitem data "submissions");
  subs ← liftR (py_iter submissions);
  liftR (fold_result subs []
           (_parse_team_runs_record (_problem_ids self) team_id)).

(** One round of the loop of [_fetch_and_parse_team_runs]: the [try] body
    ends in [return], the handler in [raise e]. *)
Definition _fetch_and_parse_team_runs_attempt (team_id : string) (i : nat)
  : M Env (control Submissions) :=
  try_except
    ((if bool_decide (0 < i)%nat then
        emit (LogWarning ("Retry fetch and parse team runs["
                            +:+ pretty i +:+ "]: " +:+ team_id))
      else mret ());;
     data ← _fetch_team_submissions team_id;
     runs ← lift_self (_parse_team_runs data team_id);
     mret (Return runs))
    (λ e, raise e).

(** The result is [None] when the loop runs out without a [return]. *)
Definition _fetch_and_parse_team_runs (team_id : string)
  : M Env (option Submissions) :=
  for_return (seq 0 kRetryTimes)
             (_fetch_and_parse_team_runs_attempt team_id).

Definition _process_team_runs_batch (team_batch : list Team.t)
  : M Env (list (option Submissions)) :=
  let tasks :=
    (λ team, _fetch_and_parse_team_runs (Team.team_id team)) <$> team_batch
  in
  gather tasks.

(** One round of the batch loop of [_parse]. *)
Definition _parse_batch (batch_size : nat) (teams : list Team.t)
    (all_runs : Submissions) (i : nat) : M Env Submissions :=
  (if bool_decide (0 < i)%nat then emit (Sleep 1) else mret ());;
  let team_batch := islice teams i (i + batch_size) in
  team_runs_batch ← _process_team_runs_batch team_batch;
  all_runs ← liftR (fold_result team_runs_batch all_runs extend);
  emit (LogInfo ("Processed " +:+ pretty (i + length team_batch)%nat
                   +:+ " teams"));;
  mret all_runs.

(** The part of [_parse] after the early [return]: the sweep over all
    teams. *)
Definition _parse_fetch_runs : M Env unit :=
  s ← get;
  let all_runs : Submissions := [] in
  let batch_size := 100%nat in
  let teams := dict_values (_teams (self s)) in
  all_runs ← for_fold (range 0 (length teams) batch_size) all_runs
                      (_parse_batch batch_size teams);
  let all_runs := list_sort_by Submission.timestamp all_runs in
  lift_self (modify (set_runs all_runs)).

Definition _parse (fetch_runs : bool) : M Env unit :=
  groups ← _fetch_groups;
  lift_self (_parse_groups groups);;
  rank ← _fetch_rank;
  lift_self (_parse_contest rank);;
  lift_self (_parse_teams rank);;
  if negb fetch_runs then lift_self (_make_fake_runs rank)
  else _parse_fetch_runs.

(** [asyncio.run(self._parse, fetch_runs)]: the coroutine function itself
    and the flag, as two positional arguments. *)
Definition run (fetch_runs : bool) : M Env unit :=
  asyncio_run [ArgCoroutineFunction _parse; ArgBool fetch_runs].

End spider.

(** ** Vocabulary of the statements *)

(** A JSON object written as a list of members. *)
Definition obj (kvs : list (string * pyval)) : pyval :=
  PDict (prod_map KStr id <$> kvs).

(** The error of the specification's taxonomy for a submission that names a
    problem outside the mapping: the [KeyError] that the subscript
    [self._problem_ids[...]] raises, carrying the unknown id. *)
Definition UnknownProblemError (problem : pyval) : exn := KeyError problem.

Definition api_url (contest_id path : string) : string :=
  "https://pintia.cn/api/competitions/" +:+ contest_id +:+ "/" +:+ path.

Definition team_submissions_url (contest_id team_id : string) : string :=
  api_url contest_id ("xcpc-rankings-team-submissions?team_fid=" +:+ team_id).

(** *** Contest parsing *)


(** The problem records of a snapshot in iteration order, when the lines of
    [_parse_contest] before its loop go through. *)
Definition rank_problem_items (get_timestamp : pyval → result Z)
    (data : pyval) : result (list (pykey * pyval)) :=
  competitionBasicInfo ← getitem data "competitionBasicInfo";
  startAt ← getitem competitionBasicInfo "startAt";
  _ ← get_timestamp startAt;
  endAt ← getitem competitionBasicInfo "endAt";
  _ ← get_timestamp endAt;
  xcpcRankings ← getitem data "xcpcRankings";
  problemInfo ← getitem xcpcRankings "problemInfoByProblemSetProblemId";
  py_items problemInfo.



(** *** Team parsing *)

Definition ranking_records (data : pyval) : result (list pyval) :=
  xcpcRankings ← getitem data "xcpcRankings";
  rankings ← getitem xcpcRankings "rankings";
  py_iter rankings.

(** A ranking record with every field [_parse_teams] reads. *)
Definition ranking_record_ok (r : pyval) : bool :=
  is_ok (getitem r "teamFid")
  && match getitem r "teamInfo" with
     | Ok team_info =>
         forallb (λ k, is_ok (getitem team_info k))
                 ["teamName"; "memberNames"; "schoolName"; "excluded";
                  "girlMajor"; "groupFids"]
     | Err _ => false
     end.

Definition rankings_ok (data : pyval) : bool :=
  match ranking_records data with
  | Ok rs => forallb ranking_record_ok rs
  | Err _ => false
  end.

Definition record_team_id (py_repr : pyval → string) (r : pyval)
  : result string :=
  teamFid ← getitem r "teamFid"; Ok (py_str py_repr teamFid).

(** The exclusion flag of a ranking record. *)
Definition record_excluded (r : pyval) : result bool :=
  team_info ← getitem r "teamInfo";
  excluded ← getitem team_info "excluded";
  Ok (py_bool excluded).

(** The [Team] that a round of [_parse_teams] builds from the record [r]. *)
Definition record_team (py_repr : pyval → string) (r : pyval)
  : result Team.t :=
  teamFid ← getitem r "teamFid";
  team_info ← getitem r "teamInfo";
  teamName ← getitem team_info "teamName";
  members ← getitem team_info "memberNames";
  schoolName ← getitem team_info "schoolName";
  girlMajor ← getitem team_info "girlMajor";
  group_fids ← getitem team_info "groupFids";
  Ok (Team.mk (py_str py_repr teamFid) (py_str py_repr teamName)
              (py_str py_repr schoolName) members group_fids
              (py_bool girlMajor)).

(** The ranking record [r] is one of team [id] and is not excluded. *)
Definition takes_part (py_repr : pyval → string) (r : pyval) (id : string)
  : Prop :=
  record_team_id py_repr r = Ok id ∧ record_excluded r = Ok false.

(** What the locals [teams] and [team_ids] of [_parse_teams] hold after the
    records [pre]. *)
Definition teams_invariant (py_repr : pyval → string) (pre : list pyval)
    (acc : Teams * gset string) : Prop :=
  NoDup (dict_keys acc.1)
  ∧ (∀ id, id ∈ dict_keys acc.1 ↔ ∃ r, r ∈ pre ∧ takes_part py_repr r id)
  ∧ (∀ id, id ∈ acc.2 ↔ ∃ r, r ∈ pre ∧ takes_part py_repr r id)
  ∧ (∀ id team, (id, team) ∈ acc.1 →
       ∃ r, r ∈ pre ∧ record_excluded r = Ok false
            ∧ record_team py_repr r = Ok team ∧ Team.team_id team = id).

(** *** Placeholder runs *)

Definition fake_status_ok (item : pykey * pyval) : bool :=
  forallb (λ k, is_ok (getitem item.2 k))
          ["status"; "validSubmitCount"; "acceptTime"; "submitCountSnapshot"].

(** A ranking record with every field [_make_fake_runs] reads. *)
Definition fake_record_ok (r : pyval) : bool :=
  is_ok (teamInfo ← getitem r "teamInfo"; getitem teamInfo "teamFid")
  && match getitem r "problemSubmissionDetailsByProblemSetProblemId"
           ≫= py_items with
     | Ok items => forallb fake_status_ok items
     | Err _ => false
     end.

Definition fake_runs_ok (data : pyval) : bool :=
  match ranking_records data with
  | Ok rs => forallb fake_record_ok rs
  | Err _ => false
  end.

(** *** Submission parsing *)

Definition submission_records (data : pyval) : result (list pyval) :=
  submissions ← getitem data "submissions"; py_iter submissions.

(** A submission record with every field [_parse_team_runs] reads, a
    hashable problem reference and a time that parses. *)
Definition submission_record_ok (get_timestamp : pyval → result Z)
    (submission : pyval) : bool :=
  is_ok (getitem submission "status")
  && is_ok (getitem submission "problemSetProblemId" ≫= hashkey)
  && is_ok (getitem submission "submitAt" ≫= get_timestamp)
  && is_ok (getitem submission "submissionId").

(** The index of the problem a submission record names. *)
Definition submission_problem_index (problem_ids : list (pykey * Z))
    (submission : pyval) : result Z :=
  getitem submission "problemSetProblemId" ≫= dict_subscript problem_ids.

Definition problem_known (problem_ids : list (pykey * Z))
    (submission : pyval) : bool :=
  is_ok (submission_problem_index problem_ids submission).

(** [run] is the submission that [_parse_team_runs] builds from the record
    [submission] for team [team_id]. *)
Definition parsed_from (get_timestamp : pyval → result Z)
    (problem_ids : list (pykey * Z)) (team_id : string)
    (submission : pyval) (run : Submission.t) : Prop :=
  Submission.team_id run = team_id
  ∧ (status ← getitem submission "status"; Ok (_parse_status status))
    = Ok (Submission.status run)
  ∧ submission_problem_index problem_ids submission
    = Ok (Submission.problem_id run)
  ∧ getitem submission "submitAt" ≫= get_timestamp
    = Ok (Submission.timestamp run)
  ∧ getitem submission "submissionId" = Ok (Submission.submission_id run).

(** *** Fetching one team *)

(** The outcome of the first round of [_fetch_and_parse_team_runs] for an
    object [self] and a trace [tr]: the answer to the request, parsed. *)
Definition first_attempt (get_timestamp : pyval → result Z)
    (remote : string → nat → response) (self : PTA) (tr : list event)
    (team_id : string) : result (option Submissions) :=
  let url := team_submissions_url (_contest_id self) team_id in
  data ← response_json url (remote url (requests_to url tr));
  runs ← (_parse_team_runs get_timestamp data team_id self).1;
  Ok (Some runs).

(** [runs] is what the fetch-and-parse of [team] returned at some point of
    a run. *)
Definition fetched (get_timestamp : pyval → result Z)
    (remote : string → nat → response) (team : Team.t) (runs : Submissions)
  : Prop :=
  ∃ s1 s2,
    _fetch_and_parse_team_runs get_timestamp remote (Team.team_id team) s1
    = (Ok (Some runs), s2).

(** Every request for the submissions of a team of [teams] is answered
    with a payload that parses, whenever it is made. *)
Definition always_served (get_timestamp : pyval → result Z)
    (remote : string → nat → response) (self0 : PTA) (teams : list Team.t)
  : Prop :=
  ∀ team tr, team ∈ teams →
    is_ok (first_attempt get_timestamp remote self0 tr (Team.team_id team))
    = true.

(** *** The sweep *)

Definition ceil_div (n b : nat) : nat := ((n + b - 1) / b)%nat.

(** The k-th batch of [b] teams. *)
Definition batch_of {A} (b : nat) (teams : list A) (k : nat) : list A :=
  take b (drop (b * k) teams).

(** What one batch adds to the trace: a pause unless it is the first, a
    request per team, the progress line. *)
Definition batch_trace (contest_id : string) (teams : list Team.t) (k : nat)
  : list event :=
  (if bool_decide (0 < k)%nat then [Sleep 1] else [])
  ++ ((λ team, Get (team_submissions_url contest_id (Team.team_id team)))
        <$> batch_of 100 teams k)
  ++ [LogInfo ("Processed "
                 +:+ pretty (100 * k + length (batch_of 100 teams k))%nat
                 +:+ " teams")].

Definition sweep_trace (contest_id : string) (teams : list Team.t)
  : list event :=
  concat (batch_trace contest_id teams
            <$> seq 0 (ceil_div (length teams) 100)).

(** *** The class [Contest] *)

(** The letters "A" to "Z" as labels. *)
Definition alphabet : list pyval :=
  PStr <$> [ "A"; "B"; "C"; "D"; "E"; "F"; "G"; "H"; "I"; "J"; "K"; "L"; "M";
             "N"; "O"; "P"; "Q"; "R"; "S"; "T"; "U"; "V"; "W"; "X"; "Y"; "Z" ].

(** *** Group parsing *)

(** A group record with a [name] and a hashable [fid]. *)
Definition group_record_ok (g : pyval) : bool :=
  is_ok (getitem g "name") && is_ok (getitem g "fid" ≫= hashkey).

(** *** More on contest and team parsing *)

(** Start and end of the contest as the first lines of [_parse_contest]
    read them. *)
Definition rank_times (get_timestamp : pyval → result Z) (data : pyval)
  : result (Z * Z) :=
  competitionBasicInfo ← getitem data "competitionBasicInfo";
  startAt ← getitem competitionBasicInfo "startAt";
  start_time ← get_timestamp startAt;
  endAt ← getitem competitionBasicInfo "endAt";
  end_time ← get_timestamp endAt;
  Ok (start_time, end_time).

(** The team a ranking record gives rise to, under its id, when the record
    is not excluded. *)
Definition kept_team (py_repr : pyval → string) (r : pyval)
  : option (string * Team.t) :=
  match record_excluded r, record_team py_repr r with
  | Ok false, Ok team => Some (Team.team_id team, team)
  | _, _ => None
  end.

Definition kept_teams (py_repr : pyval → string) (rs : list pyval)
  : list (string * Team.t) :=
  omap (kept_team py_repr) rs.

(** ** Concrete inputs *)

Module Examples.

(** Instances of the three parameters: no containers are printed, the
    timestamps of four instants of 2024-09-01 (UTC) are tabulated, and a
    service that answers from a table of responses per URL. *)
Definition no_repr : pyval → string := λ _, "".

Definition timestamps : pyval → result Z :=
  λ v,
    match v with
    | PStr s =>
        match dict_get s [ ("2024-09-01T00:00:00Z", 1725148800);
                           ("2024-09-01T00:10:00Z", 1725149400);
                           ("2024-09-01T00:20:00Z", 1725150000);
                           ("2024-09-01T05:00:00Z", 1725166800) ] with
        | Some t => Ok t
        | None => Err (ValueError "Invalid isoformat string")
        end
    | _ => Err (AttributeError "object has no attribute 'replace'")
    end.

Definition remote_of (table : list (string * list response))
  : string → nat → response :=
  λ url n,
    match dict_get url table ≫= (.!! n) with
    | Some resp => resp
    | None => TransportFault (ClientError "Cannot connect to host")
    end.

Definition ok_json (v : pyval) : response := HttpResponse 200 (Ok v).

Definition pta0 : PTA := PTA_init Contest.init "c1".

Definition submission (problem status submitAt id : string) : pyval :=
  obj [ ("status", PStr status); ("problemSetProblemId", PStr problem);
        ("submitAt", PStr submitAt); ("submissionId", PStr id) ].

(** *** A team whose first request is refused and whose second is served *)

Definition t1_payload : pyval :=
  obj [ ("submissions",
         PList [ submission "p1" "ACCEPTED" "2024-09-01T00:10:00Z" "s1" ]) ].

Definition flaky_remote : string → nat → response :=
  remote_of [ (team_submissions_url "c1" "t1",
               [ HttpResponse 503 (Ok PNone); ok_json t1_payload ]) ].

Definition pta_p1 : PTA := set_problem_ids [(KStr "p1", 0)] pta0.

(** *** Rank snapshots *)

Definition problem (label rgb : string) : pyval :=
  obj [ ("label", PStr label); ("balloonRgb", PStr rgb) ].

Definition ranking (teamFid teamName : string) (excluded : bool)
    (details : list (string * pyval)) : pyval :=
  obj [ ("teamFid", PStr teamFid);
        ("teamInfo",
         obj [ ("teamFid", PStr teamFid); ("teamName", PStr teamName);
               ("memberNames", PList [PStr "a"; PStr "b"; PStr "c"]);
               ("schoolName", PStr "School"); ("excluded", PBool excluded);
               ("girlMajor", PBool false);
               ("groupFids", PList [PStr "g1"]) ]);
        ("problemSubmissionDetailsByProblemSetProblemId", obj details) ].

Definition summary (status : string) : pyval :=
  obj [ ("status", PStr status); ("validSubmitCount", PInt 1);
        ("acceptTime", PInt 600); ("submitCountSnapshot", PInt 1) ].

Definition snapshot (problems : list (string * pyval))
    (rankings : list pyval) : pyval :=
  obj [ ("competitionBasicInfo",
         obj [ ("startAt", PStr "2024-09-01T00:00:00Z");
               ("endAt", PStr "2024-09-01T05:00:00Z") ]);
        ("xcpcRankings",
         obj [ ("problemInfoByProblemSetProblemId", obj problems);
               ("rankings", PList rankings) ]) ].


(** One problem labelled "A". *)
Definition rank_one_problem : pyval :=
  snapshot [ ("p1", problem "A" "#ff0000") ] [].

(** Three problems A, B, C; teams t1 and t2 take part, t3 is excluded. *)
Definition rank_three_teams : pyval :=
  snapshot [ ("p1", problem "A" "#ff0000"); ("p2", problem "B" "#00ff00");
             ("p3", problem "C" "#0000ff") ]
           [ ranking "t1" "One" false [ ("p1", summary "ACCEPTED") ];
             ranking "t3" "Three" true [];
             ranking "t2" "Two" false [ ("p2", summary "WRONG_ANSWER") ] ].

(** No problems, two teams. *)
Definition rank_no_problems : pyval :=
  snapshot [] [ ranking "t1" "One" false []; ranking "t2" "Two" false [] ].

(** *** Groups *)

Definition groups_two : pyval :=
  obj [ ("groups",
         PList [ obj [ ("fid", PStr "g1"); ("name", PStr "Alpha") ];
                 obj [ ("fid", PStr "g2"); ("name", PStr "Beta") ] ]) ].

Definition groups_none : pyval := obj [ ("groups", PList []) ].

(** *** Team submissions *)

(** The second record names problem "p9". *)
Definition t1_unknown_records : list pyval :=
  [ submission "p1" "ACCEPTED" "2024-09-01T00:10:00Z" "s1";
    submission "p9" "WRONG_ANSWER" "2024-09-01T00:20:00Z" "s2" ].

Definition t1_unknown_problem : pyval :=
  obj [ ("submissions", PList t1_unknown_records) ].

Definition t1_known_records : list pyval :=
  [ submission "p1" "WRONG_ANSWER" "2024-09-01T00:10:00Z" "s1";
    submission "p1" "ACCEPTED" "2024-09-01T00:20:00Z" "s2" ].

Definition t1_known_problems : pyval :=
  obj [ ("submissions", PList t1_known_records) ].

(** *** Sweeps *)

Definition team (team_id : string) : Team.t :=
  Team.mk team_id team_id "School" (PList []) (PList []) false.

Definition with_teams (ids : list string) (self : PTA) : PTA :=
  set_teams ((λ id, (id, team id)) <$> ids) self.

(** Teams a, b, c; a and c submit at the same two instants, b in between
    and at the later one. *)
Definition abc_remote : string → nat → response :=
  remote_of
    [ (team_submissions_url "c1" "a",
       [ ok_json (obj [ ("submissions",
           PList [ submission "p1" "ACCEPTED" "2024-09-01T00:20:00Z" "a1";
                   submission "p1" "ACCEPTED" "2024-09-01T00:00:00Z"
                              "a2" ]) ]) ]);
      (team_submissions_url "c1" "b",
       [ ok_json (obj [ ("submissions",
           PList [ submission "p1" "WRONG_ANSWER" "2024-09-01T00:10:00Z"
                              "b1";
                   submission "p1" "ACCEPTED" "2024-09-01T00:20:00Z"
                              "b2" ]) ]) ]);
      (team_submissions_url "c1" "c",
       [ ok_json (obj [ ("submissions",
           PList [ submission "p1" "ACCEPTED" "2024-09-01T00:00:00Z" "c1";
                   submission "p1" "ACCEPTED" "2024-09-01T00:20:00Z"
                              "c2" ]) ]) ]) ].

Definition abc_env : Env := mkEnv (with_teams ["a"; "b"; "c"] pta_p1) [].

(** 250 teams, none of which has submitted. *)
Definition quiet_remote : string → nat → response :=
  λ _ _, ok_json (obj [ ("submissions", PList []) ]).

Definition env_250 : Env :=
  mkEnv (with_teams ((λ k : nat, "t" +:+ pretty k) <$> seq 0 250) pta0) [].

(** *** A whole run without live submissions *)

Definition preview_remote : string → nat → response :=
  remote_of [ (api_url "c1" "groups", [ ok_json groups_none ]);
              (api_url "c1" "xcpc-rankings", [ ok_json rank_no_problems ]) ].

(** *** Two records for the same team *)

Definition duplicate_rankings : list pyval :=
  [ ranking "t1" "One" false []; ranking "t2" "Two" false [];
    ranking "t1" "Uno" false [] ].

Definition rank_duplicate_ids : pyval := snapshot [] duplicate_rankings.

Definition three_rankings : list pyval :=
  [ ranking "t1" "One" false [ ("p1", summary "ACCEPTED") ];
    ranking "t3" "Three" true [];
    ranking "t2" "Two" false [ ("p2", summary "WRONG_ANSWER") ] ].

(** *** Payloads without submissions *)

Definition no_submissions : pyval := obj [ ("submissions", PList []) ].

Definition no_submissions_key : pyval := obj [ ("runs", PList []) ].

(** *** A sweep that fails at its second team *)

Definition ab_failing_remote : string → nat → response :=
  remote_of
    [ (team_submissions_url "c1" "a",
       [ ok_json (obj [ ("submissions",
           PList [ submission "p1" "ACCEPTED" "2024-09-01T00:20:00Z"
                              "a1" ]) ]) ]);
      (team_submissions_url "c1" "b", [ HttpResponse 500 (Ok PNone) ]) ].

Definition ab_env : Env := mkEnv (with_teams ["a"; "b"] pta_p1) [].

(** *** A run on a snapshot with one problem *)

Definition problem_remote : string → nat → response :=
  remote_of [ (api_url "c1" "groups", [ ok_json groups_two ]);
              (api_url "c1" "xcpc-rankings", [ ok_json rank_one_problem ]) ].

(** *** A whole run with live submissions, none of which exists *)

Definition quiet_contest_remote : string → nat → response :=
  λ url n,
    if decide (url = api_url "c1" "groups") then ok_json groups_none
    else if decide (url = api_url "c1" "xcpc-rankings")
         then ok_json rank_no_problems
         else ok_json no_submissions.

(** *** Groups that cannot be parsed *)

Definition bad_groups_remote : string → nat → response :=
  remote_of [ (api_url "c1" "groups", [ ok_json (obj []) ]);
              (api_url "c1" "xcpc-rankings", [ ok_json rank_no_problems ]) ].

(** *** No service at all *)

Definition dead_remote : string → nat → response := remote_of [].

End Examples.

(** * Properties *)

(** ** The stable sort *)

Section sort_facts.
Context {A : Type} (key : A → Z).

Lemma insert_by_perm (x : A) (l : list A) : insert_by key x l ≡ₚ x :: l.
Proof.
  induction l as [|y l IH]; simpl; [done|].
  destruct (key x <=? key y); [done|].
  rewrite IH. apply Permutation_swap.
Qed.

Lemma list_sort_by_perm (l : list A) : list_sort_by key l ≡ₚ l.
Proof.
  induction l as [|x l IH]; simpl; [done|].
  by rewrite insert_by_perm, IH.
Qed.

Lemma insert_by_sorted (x : A) (l : list A) :
  StronglySorted (key_le key) l →
  StronglySorted (key_le key) (insert_by key x l).
Proof.
  induction 1 as [|y l Hl IH Hy]; simpl.
  - repeat constructor.
  - destruct (Z.leb_spec (key x) (key y)) as [Hxy|Hxy].
    + constructor; [by constructor|].
      constructor; [done|].
      eapply Forall_impl; [exact Hy|].
      unfold key_le. intros z Hz. lia.
    + constructor; [done|].
      rewrite insert_by_perm. constructor; [|done].
      unfold key_le. lia.
Qed.

Lemma list_sort_by_sorted (l : list A) :
  StronglySorted (key_le key) (list_sort_by key l).
Proof.
  induction l as [|x l IH]; simpl; [constructor|].
  by apply insert_by_sorted.
Qed.

Lemma with_key_insert_by (k : Z) (x : A) (l : list A) :
  with_key key k (insert_by key x l) = with_key key k (x :: l).
Proof.
  unfold with_key.
  induction l as [|y l IH]; simpl; [done|].
  destruct (Z.leb_spec (key x) (key y)) as [Hxy|Hxy]; [done|].
  rewrite (filter_cons _ y), IH, !filter_cons.
  repeat case_decide; try done; lia.
Qed.

Lemma list_sort_by_stable (k : Z) (l : list A) :
  with_key key k (list_sort_by key l) = with_key key k l.
Proof.
  induction l as [|x l IH]; simpl; [done|].
  rewrite with_key_insert_by. unfold with_key in *.
  by rewrite !filter_cons, IH.
Qed.

(** Two sorted lists with the same elements in the same order under every
    key are equal: whatever stable sort Python runs, it returns
    [list_sort_by]. *)
Lemma stable_sort_unique (l1 l2 : list A) :
  StronglySorted (key_le key) l1 →
  StronglySorted (key_le key) l2 →
  (∀ k, with_key key k l1 = with_key key k l2) →
  l1 = l2.
Proof.
  intros H1. revert l2.
  induction H1 as [|x l1 Hl1 IH Hx]; intros l2 H2 Heq.
  - destruct l2 as [|y l2]; [done|].
    specialize (Heq (key y)). unfold with_key in Heq.
    rewrite filter_cons in Heq. by case_decide.
  - destruct H2 as [|y l2 Hl2 Hy].
    + specialize (Heq (key x)). unfold with_key in Heq.
      rewrite filter_cons in Heq. by case_decide.
    + assert (key x = key y) as Hk.
      { assert (key y ≤ key x) as Hyx.
        { assert (x ∈ with_key key (key x) (y :: l2)) as Hin.
          { rewrite <- Heq. unfold with_key.
            apply list_elem_of_filter. split; [done|]. left. }
          apply list_elem_of_filter in Hin as [_ Hin].
          apply elem_of_cons in Hin as [->|Hin]; [lia|].
          apply (proj1 (Forall_forall _ _) Hy _ Hin). }
        assert (key x ≤ key y) as Hxy.
        { assert (y ∈ with_key key (key y) (x :: l1)) as Hin.
          { rewrite Heq. unfold with_key.
            apply list_elem_of_filter. split; [done|]. left. }
          apply list_elem_of_filter in Hin as [_ Hin].
          apply elem_of_cons in Hin as [->|Hin]; [lia|].
          apply (proj1 (Forall_forall _ _) Hx _ Hin). }
        lia. }
      assert (x = y) as ->.
      { specialize (Heq (key x)). unfold with_key in Heq.
        rewrite !filter_cons in Heq.
        rewrite decide_True in Heq by done.
        rewrite decide_True in Heq by done.
        congruence. }
      f_equal. apply IH; [done|]. intros k.
      specialize (Heq k). unfold with_key in *.
      rewrite !filter_cons in Heq.
      case_decide; congruence.
Qed.
End sort_facts.

(** ** [range] and the batches *)

Lemma ceil_div_bounds (n b : nat) :
  (0 < b)%nat → (n ≤ b * ceil_div n b ∧ b * ceil_div n b < n + b)%nat.
Proof.
  intros Hb. unfold ceil_div.
  pose proof (Nat.div_mod_eq (n + b - 1) b) as Hdm.
  pose proof (Nat.mod_upper_bound (n + b - 1) b) as Hmod.
  lia.
Qed.

Lemma ceil_div_0 (b : nat) : (0 < b)%nat → ceil_div 0 b = 0%nat.
Proof. intros Hb. pose proof (ceil_div_bounds 0 b Hb). nia. Qed.

Lemma ceil_div_step (n b : nat) :
  (0 < b)%nat → (0 < n)%nat → ceil_div n b = S (ceil_div (n - b) b).
Proof.
  intros Hb Hn.
  pose proof (ceil_div_bounds n b Hb) as [H1 H2].
  pose proof (ceil_div_bounds (n - b) b Hb) as [H3 H4].
  set (c := ceil_div n b) in *. set (c' := ceil_div (n - b) b) in *.
  destruct (lt_eq_lt_dec c (S c')) as [[Hc|Hc]|Hc]; [|done|]; exfalso.
  - assert (b * c ≤ b * c')%nat by (apply Nat.mul_le_mono_l; lia).
    destruct c' as [|c']; [|nia].
    assert (c = 0%nat) as -> by lia. lia.
  - assert (b * (c' + 2) ≤ b * c)%nat by (apply Nat.mul_le_mono_l; lia). lia.
Qed.

Lemma range_fuel_spec (step stop fuel i : nat) :
  (0 < step)%nat → (stop - i ≤ fuel)%nat →
  range_fuel fuel i stop step
  = (λ k, i + step * k)%nat <$> seq 0 (ceil_div (stop - i) step).
Proof.
  intros Hstep. revert i.
  induction fuel as [|fuel IH]; intros i Hfuel; simpl.
  - replace (stop - i)%nat with 0%nat by lia. by rewrite ceil_div_0.
  - case_decide as Hi.
    + rewrite (ceil_div_step (stop - i) step) by lia.
      rewrite IH by lia. simpl. f_equal; [lia|].
      rewrite <- fmap_S_seq, <- list_fmap_compose.
      replace (stop - (i + step))%nat with (stop - i - step)%nat by lia.
      apply list_fmap_ext. intros _ k _. simpl. lia.
    + replace (stop - i)%nat with 0%nat by lia. by rewrite ceil_div_0.
Qed.

Lemma range_spec (n b : nat) :
  (0 < b)%nat → range 0 n b = (λ k, b * k)%nat <$> seq 0 (ceil_div n b).
Proof.
  intros Hb. unfold range. rewrite range_fuel_spec by lia.
  by rewrite Nat.sub_0_r.
Qed.

Lemma islice_batch_of {A} (b : nat) (l : list A) (k : nat) :
  islice l (b * k) (b * k + b) = batch_of b l k.
Proof. unfold islice, batch_of. f_equal. lia. Qed.

Lemma batch_of_drop {A} (b : nat) (l : list A) (k : nat) :
  batch_of b l (S k) = batch_of b (drop b l) k.
Proof.
  unfold batch_of. rewrite drop_drop. do 2 f_equal. lia.
Qed.

Lemma concat_batches_gen {A} (b m : nat) (l : list A) :
  (length l ≤ b * m)%nat → concat (batch_of b l <$> seq 0 m) = l.
Proof.
  revert l. induction m as [|m IH]; intros l Hl; simpl.
  - destruct l; [done|simpl in Hl; lia].
  - rewrite <- fmap_S_seq, <- list_fmap_compose.
    assert (batch_of b l ∘ S <$> seq 0 m
            = batch_of b (drop b l) <$> seq 0 m) as ->
      by (apply list_fmap_ext; intros _ k _; apply batch_of_drop).
    rewrite IH by (rewrite length_drop; lia).
    unfold batch_of. rewrite Nat.mul_0_r. simpl.
    apply take_drop.
Qed.

Lemma concat_batches {A} (b : nat) (l : list A) :
  (0 < b)%nat →
  concat (batch_of b l <$> seq 0 (ceil_div (length l) b)) = l.
Proof.
  intros Hb. apply concat_batches_gen.
  by apply ceil_div_bounds.
Qed.

Lemma batch_of_length {A} (b : nat) (l : list A) (k : nat) :
  length (batch_of b l k) = (b `min` (length l - b * k))%nat.
Proof. unfold batch_of. by rewrite length_take, length_drop. Qed.

Lemma full_batch_length {A} (b : nat) (l : list A) (k : nat) :
  (0 < b)%nat → (S k < ceil_div (length l) b)%nat →
  length (batch_of b l k) = b.
Proof.
  intros Hb Hk. rewrite batch_of_length.
  pose proof (ceil_div_bounds (length l) b Hb). nia.
Qed.

Lemma last_batch_length {A} (b : nat) (l : list A) (k : nat) :
  (0 < b)%nat → S k = ceil_div (length l) b →
  (0 < length (batch_of b l k) ≤ b)%nat.
Proof.
  intros Hb Hk. rewrite batch_of_length.
  pose proof (ceil_div_bounds (length l) b Hb). nia.
Qed.

(** ** The public entry point *)

(** C2: for either value of [fetch_runs], [run] raises [TypeError] when the
    arguments of [asyncio.run] are bound, and leaves the object and the trace
    as they were: no request is sent, nothing is parsed or stored.  Handing
    over the coroutine object [self._parse(fetch_runs)] instead would have
    run the pipeline. *)
Theorem run_raises_before_ingestion (py_repr : pyval → string)
    (get_timestamp : pyval → result Z) (remote : string → nat → response)
    (fetch_runs : bool) (s : Env) :
  run py_repr get_timestamp remote fetch_runs s
  = (Err (TypeError "run() takes 1 positional argument but 2 were given"), s)
  ∧ asyncio_run
      [ArgCoroutine (_parse py_repr get_timestamp remote fetch_runs)] s
    = _parse py_repr get_timestamp remote fetch_runs s.
Proof. split; reflexivity. Qed.

(** ** One team: a single attempt *)

Section one_team.
Variable get_timestamp : pyval → result Z.
Variable remote : string → nat → response.

Lemma lift_self_parse_team_runs (data : pyval) (team_id : string) (s : Env) :
  lift_self (_parse_team_runs get_timestamp data team_id) s
  = ((_parse_team_runs get_timestamp data team_id (self s)).1, s).
Proof.
  destruct s as [self tr]. unfold lift_self, _parse_team_runs. simpl.
  unfold mbind, M_bind, get, liftR.
  destruct (getitem data "submissions") as [submissions|e]; [|done].
  by destruct (py_iter submissions).
Qed.

(** Whatever the service answers, the loop makes one request and returns
    or raises with the outcome of that round. *)
Lemma fetch_and_parse_first_attempt (team_id : string) (s : Env) :
  _fetch_and_parse_team_runs get_timestamp remote team_id s
  = (first_attempt get_timestamp remote (self s) (trace s) team_id,
     mkEnv (self s)
           (trace s
              ++ [Get (team_submissions_url (_contest_id (self s)) team_id)])).
Proof.
  unfold _fetch_and_parse_team_runs, first_attempt. simpl.
  unfold mbind at 1. unfold M_bind at 1.
  unfold _fetch_and_parse_team_runs_attempt, try_except.
  rewrite bool_decide_eq_false_2 by lia.
  unfold mbind at 1. unfold M_bind at 1. unfold mret at 1. unfold M_ret at 1.
  unfold _fetch_team_submissions, _fetch_rank_by_uri.
  unfold mbind at 1. unfold M_bind at 1.
  unfold mbind at 1. unfold M_bind at 1. unfold get at 1.
  unfold mbind at 1. unfold M_bind at 1. unfold emit, modify, liftR.
  fold (api_url (_contest_id (self s))
          ("xcpc-rankings-team-submissions?team_fid=" +:+ team_id)).
  fold (team_submissions_url (_contest_id (self s)) team_id).
  simpl self. simpl trace.
  destruct (response_json _ _) as [data|e]; simpl; [|done].
  unfold mbind at 1. unfold M_bind at 1.
  rewrite lift_self_parse_team_runs. simpl.
  by destruct (_parse_team_runs _ _ _ _).1.
Qed.
End one_team.

(** C1: the service refuses the first request for team "t1" with status 503
    and would serve the second.  The call raises the error of the first
    round after a single request; the payload of the second round, which
    parses, is never asked for. *)
Theorem fetch_and_parse_raises_on_first_failure :
  let url := team_submissions_url "c1" "t1" in
  _fetch_and_parse_team_runs Examples.timestamps Examples.flaky_remote "t1"
                             (mkEnv Examples.pta_p1 [])
  = (Err (Exception ("Failed to fetch " +:+ url +:+ ", status: 503")),
     mkEnv Examples.pta_p1 [Get url])
  ∧ first_attempt Examples.timestamps Examples.flaky_remote Examples.pta_p1
                  [Get url] "t1"
    = Ok (Some [Submission.mk "t1" RESULT_ACCEPTED 0 1725149400 (PStr "s1")]).
Proof. split; vm_compute; reflexivity. Qed.

(** ** Groups *)

(** C4: on a payload with the groups g1 "Alpha" and g2 "Beta" the contest
    receives the last record with one more member, not the mapping of g1 and
    g2 to their names. *)
Theorem parse_groups_attaches_last_record :
  _parse_groups Examples.groups_two Examples.pta0
  = (Ok (),
     set_contest
       (Contest.set_group
          (obj [("fid", PStr "g2"); ("name", PStr "Beta");
                ("g2", PStr "Beta")]))
       Examples.pta0)
  ∧ getitem (obj [("fid", PStr "g2"); ("name", PStr "Beta");
                  ("g2", PStr "Beta")]) "g1"
    = Err (KeyError (PStr "g1")).
Proof. split; vm_compute; reflexivity. Qed.

(** ** Contest parsing *)

(** Unfolds the binds of the two monads. *)
Ltac unfold_binds :=
  unfold mbind, M_bind, result_bind, mret, M_ret, result_ret, liftR, modify,
    raise in *.

(** Case analysis on the next read of a chain of binds in the hypothesis
    [H], recording its value. *)
Ltac next_read H :=
  match type of H with
  | context [match ?r with Ok _ => _ | Err _ => _ end] =>
      let E := fresh "Hread" in
      destruct r eqn:E; [|discriminate H]
  end.

Lemma for_fold_cons {S A B} (x : A) (xs : list A) (acc : B)
    (body : B → A → M S B) (s : S) :
  for_fold (x :: xs) acc body s
  = match body acc x s with
    | (Ok acc', s') => for_fold xs acc' body s'
    | (Err e, s') => (Err e, s')
    end.
Proof. reflexivity. Qed.

Lemma parse_contest_problem_cases (problem_ids : list (pykey * Z))
    (p_id : pykey) (p : pyval) (self : PTA) :
  _parse_contest_problem problem_ids (p_id, p) self
  = match getitem p "label" with
    | Err e => (Err e, self)
    | Ok label =>
        match getitem p "balloonRgb" with
        | Err e => (Err e, self)
        | Ok _ =>
            (Err (AttributeError
                    "'Contest' object has no attribute 'append_balloon_color'"),
             set_contest
               (λ c, Contest.set_problem_id (Contest.problem_id c ++ [label]) c)
               self)
        end
    end.
Proof.
  unfold _parse_contest_problem, contest_call. unfold_binds.
  destruct (getitem p "label"); [|done].
  by destruct (getitem p "balloonRgb").
Qed.

Section contest.
Variable get_timestamp : pyval → result Z.

(** The object when the loop of [_parse_contest] is entered. *)
Lemma parse_contest_enters_loop (data : pyval) (self : PTA)
    (items : list (pykey * pyval)) :
  rank_problem_items get_timestamp data = Ok items →
  ∃ self0,
    Contest.problem_id (_contest self0) = []
    ∧ Contest.balloon_color (_contest self0) = []
    ∧ Contest.problem_quantity (_contest self0)
      = Contest.problem_quantity (_contest self)
    ∧ _problem_ids self0 = _problem_ids self
    ∧ _parse_contest get_timestamp data self
      = match for_fold items [] _parse_contest_problem self0 with
        | (Ok problem_ids, self1) =>
            (Ok (),
             set_problem_ids problem_ids
               (set_contest
                  (λ c, Contest.set_problem_quantity
                          (Z.of_nat (length (Contest.problem_id c))) c)
                  self1))
        | (Err e, self1) => (Err e, self1)
        end.
Proof.
  intros H. unfold rank_problem_items in H. unfold_binds.
  do 7 next_read H.
  eexists. unfold _parse_contest. unfold_binds.
  rewrite Hread, Hread0, Hread1, Hread2, Hread3, Hread4, Hread5, H.
  split_and!; cycle 4; [reflexivity | reflexivity ..].
Qed.

(** A snapshot with a first problem record that can be read stops at the
    call of [append_balloon_color], one label recorded and no colour. *)
Lemma parse_contest_raises (data : pyval) (self : PTA) (p_id : pykey)
    (p : pyval) (rest : list (pykey * pyval)) (label rgb : pyval) :
  rank_problem_items get_timestamp data = Ok ((p_id, p) :: rest) →
  getitem p "label" = Ok label →
  getitem p "balloonRgb" = Ok rgb →
  ∃ self',
    _parse_contest get_timestamp data self
    = (Err (AttributeError
              "'Contest' object has no attribute 'append_balloon_color'"),
       self')
    ∧ Contest.problem_id (_contest self') = [label]
    ∧ Contest.balloon_color (_contest self') = []
    ∧ Contest.problem_quantity (_contest self')
      = Contest.problem_quantity (_contest self)
    ∧ _problem_ids self' = _problem_ids self.
Proof.
  intros Hitems Hlabel Hrgb.
  destruct (parse_contest_enters_loop data self _ Hitems)
    as (self0 & Hid & Hcol & Hq & Hids & ->).
  rewrite for_fold_cons, parse_contest_problem_cases, Hlabel, Hrgb.
  eexists. split; [done|]. simpl. by rewrite Hid.
Qed.
End contest.

(** C8: on a snapshot with the single problem p1 labelled "A" and a fresh
    [Contest()], parsing raises [AttributeError] at the call of
    [append_balloon_color], which class [Contest] does not define; the
    contest is left with one label, no balloon colour and
    [problem_quantity = 0]. *)
Theorem parse_contest_breaks_length_invariant :
  let out := _parse_contest Examples.timestamps Examples.rank_one_problem
                            Examples.pta0 in
  out.1 = Err (AttributeError
                 "'Contest' object has no attribute 'append_balloon_color'")
  ∧ Contest.problem_id (_contest out.2) = [PStr "A"]
  ∧ Contest.balloon_color (_contest out.2) = []
  ∧ Contest.problem_quantity (_contest out.2) = 0
  ∧ length (Contest.problem_id (_contest out.2))
    ≠ length (Contest.balloon_color (_contest out.2)).
Proof. split_and!; [reflexivity..|]. vm_compute. discriminate. Qed.




(** ** Loops and dictionaries *)

Lemma fold_result_cons {A B} (x : A) (xs : list A) (acc : B)
    (body : B → A → result B) :
  fold_result (x :: xs) acc body
  = match body acc x with
    | Ok acc' => fold_result xs acc' body
    | Err e => Err e
    end.
Proof. reflexivity. Qed.

(** A loop whose every round succeeds on an admissible element and keeps the
    invariant [P] of the elements seen and the locals, succeeds and ends in
    [P]. *)
Lemma fold_result_invariant {A B} (P : list A → B → Prop) (ok : A → Prop)
    (body : B → A → result B) :
  (∀ pre x acc, P pre acc → ok x →
     ∃ acc', body acc x = Ok acc' ∧ P (pre ++ [x]) acc') →
  ∀ xs pre acc, P pre acc → Forall ok xs →
    ∃ acc', fold_result xs acc body = Ok acc' ∧ P (pre ++ xs) acc'.
Proof.
  intros Hstep xs. induction xs as [|x xs IH]; intros pre acc HP Hok.
  - exists acc. by rewrite app_nil_r.
  - apply Forall_cons in Hok as [Hx Hxs].
    destruct (Hstep pre x acc HP Hx) as (acc' & Hbody & HP').
    destruct (IH (pre ++ [x]) acc' HP' Hxs) as (acc'' & Hfold & HP'').
    exists acc''. rewrite fold_result_cons, Hbody.
    split; [done|]. by rewrite <- app_assoc in HP''.
Qed.

Section dict_facts.
Context {K V : Type} `{EqDecision K}.

Lemma dict_set_cases (k : K) (v : V) (d : list (K * V)) :
  (k ∈ dict_keys d ∧ dict_keys (dict_set k v d) = dict_keys d)
  ∨ ((k ∉ dict_keys d) ∧ dict_set k v d = d ++ [(k, v)]).
Proof.
  unfold dict_keys. induction d as [|[k' v'] d IH]; cbn [dict_set].
  - right. split; [apply not_elem_of_nil|done].
  - rewrite fmap_cons. case_decide as Hk.
    + left. subst. split; [left|done].
    + destruct IH as [[Hin Heq]|[Hnin Heq]].
      * left. split; [right; done|]. rewrite fmap_cons. by rewrite Heq.
      * right. split; [|by rewrite Heq].
        intros [?|?]%elem_of_cons; done.
Qed.

Lemma elem_of_dict_keys_set (k k' : K) (v : V) (d : list (K * V)) :
  k' ∈ dict_keys (dict_set k v d) ↔ k' = k ∨ k' ∈ dict_keys d.
Proof.
  destruct (dict_set_cases k v d) as [[Hin ->]|[Hnin ->]].
  - split; [by right|]. by intros [->|?].
  - unfold dict_keys. rewrite fmap_app, elem_of_app. simpl.
    rewrite list_elem_of_singleton. tauto.
Qed.

Lemma NoDup_dict_keys_set (k : K) (v : V) (d : list (K * V)) :
  NoDup (dict_keys d) → NoDup (dict_keys (dict_set k v d)).
Proof.
  intros Hd. destruct (dict_set_cases k v d) as [[Hin ->]|[Hnin ->]]; [done|].
  unfold dict_keys in *. rewrite fmap_app. simpl.
  apply NoDup_app. split_and!; [done| |apply NoDup_singleton].
  intros x Hx ->%list_elem_of_singleton. done.
Qed.

Lemma elem_of_dict_set (k : K) (v : V) (d : list (K * V)) (x : K * V) :
  x ∈ dict_set k v d → x = (k, v) ∨ x ∈ d.
Proof.
  induction d as [|[k' v'] d IH]; simpl.
  - intros ->%list_elem_of_singleton. by left.
  - case_decide as Hk.
    + subst. intros [->|?]%elem_of_cons; [by left|]. right. by right.
    + intros [->|Hx]%elem_of_cons; [right; left|].
      destruct (IH Hx) as [?|?]; [by left|]. right. by right.
Qed.
End dict_facts.

(** ** Placeholder runs *)

Lemma is_ok_true {A} (r : result A) : is_ok r = true → ∃ a, r = Ok a.
Proof. destruct r; [eauto|discriminate]. Qed.

Lemma make_fake_runs_status_keeps (runs runs' : Submissions)
    (item : pykey * pyval) :
  _make_fake_runs_status runs item = Ok runs' → runs' = runs.
Proof.
  destruct item as [p_id status]. unfold _make_fake_runs_status.
  unfold_binds. intros H. do 4 next_read H. congruence.
Qed.

Lemma make_fake_runs_status_ok (runs : Submissions) (item : pykey * pyval) :
  fake_status_ok item = true → _make_fake_runs_status runs item = Ok runs.
Proof.
  destruct item as [p_id status]. unfold fake_status_ok. simpl.
  rewrite !andb_true_iff.
  intros ((a & Ha)%is_ok_true & (b & Hb)%is_ok_true & (c & Hc)%is_ok_true
          & (d & Hd)%is_ok_true & _).
  unfold _make_fake_runs_status. unfold_binds.
  by rewrite Ha, Hb, Hc, Hd.
Qed.

(** A loop whose rounds leave the locals as they are ends with the locals
    it started with. *)
Lemma fold_result_keeps {A B} (body : B → A → result B) (xs : list A)
    (acc acc' : B) :
  (∀ b b' x, body b x = Ok b' → b' = b) →
  fold_result xs acc body = Ok acc' → acc' = acc.
Proof.
  intros Hbody. revert acc.
  induction xs as [|x xs IH]; intros acc; simpl; [congruence|].
  unfold_binds. destruct (body acc x) as [b|e] eqn:Hb; [|done].
  apply Hbody in Hb as ->. apply IH.
Qed.

Lemma fold_result_keeps_ok {A B} (body : B → A → result B) (ok : A → bool)
    (xs : list A) (acc : B) :
  (∀ b x, ok x = true → body b x = Ok b) →
  forallb ok xs = true → fold_result xs acc body = Ok acc.
Proof.
  intros Hbody. induction xs as [|x xs IH]; simpl; [done|].
  rewrite andb_true_iff. intros [Hx Hxs].
  unfold_binds. rewrite (Hbody _ _ Hx). by apply IH.
Qed.

Section fake_runs.
Variable py_repr : pyval → string.

Lemma make_fake_runs_record_keeps (runs runs' : Submissions) (r : pyval) :
  _make_fake_runs_record py_repr runs r = Ok runs' → runs' = runs.
Proof.
  unfold _make_fake_runs_record. unfold_binds. intros H. do 4 next_read H.
  eapply fold_result_keeps; [|exact H].
  intros b b' x. apply make_fake_runs_status_keeps.
Qed.

Lemma make_fake_runs_record_ok (runs : Submissions) (r : pyval) :
  fake_record_ok r = true → _make_fake_runs_record py_repr runs r = Ok runs.
Proof.
  unfold fake_record_ok, _make_fake_runs_record. unfold_binds.
  rewrite andb_true_iff. intros [H1 H2].
  destruct (getitem r "teamInfo") as [teamInfo|]; [|done].
  destruct (getitem teamInfo "teamFid"); [|done].
  destruct (getitem r "problemSubmissionDetailsByProblemSetProblemId")
    as [details|]; [|done].
  destruct (py_items details) as [items|]; [|done].
  apply (fold_result_keeps_ok _ fake_status_ok); [|done].
  intros b x. apply make_fake_runs_status_ok.
Qed.

(** The call either installs the empty list or raises and leaves the object
    as it was. *)
Lemma make_fake_runs_cases (data : pyval) (self : PTA) :
  _make_fake_runs py_repr data self = (Ok (), set_runs [] self)
  ∨ ∃ e, _make_fake_runs py_repr data self = (Err e, self).
Proof.
  unfold _make_fake_runs. unfold_binds.
  destruct (getitem data "xcpcRankings") as [xcpcRankings|]; [|eauto].
  destruct (getitem xcpcRankings "rankings") as [rankings|]; [|eauto].
  destruct (py_iter rankings) as [rs|]; [|eauto].
  destruct (fold_result rs [] (_make_fake_runs_record py_repr))
    as [runs|] eqn:Hfold; [|eauto].
  left. apply fold_result_keeps in Hfold as ->; [done|].
  intros b b' x. apply make_fake_runs_record_keeps.
Qed.

Lemma make_fake_runs_ok (data : pyval) (self : PTA) :
  fake_runs_ok data = true →
  _make_fake_runs py_repr data self = (Ok (), set_runs [] self).
Proof.
  unfold fake_runs_ok, ranking_records, _make_fake_runs. unfold_binds.
  destruct (getitem data "xcpcRankings") as [xcpcRankings|]; [|done].
  destruct (getitem xcpcRankings "rankings") as [rankings|]; [|done].
  destruct (py_iter rankings) as [rs|]; [|done].
  intros Hrs.
  rewrite (fold_result_keeps_ok _ fake_record_ok); [done| |done].
  intros b x. apply make_fake_runs_record_ok.
Qed.
End fake_runs.

Lemma M_bind_ok_inv {S A B} (m : M S A) (f : A → M S B) (s s' : S) (b : B) :
  (m ≫= f) s = (Ok b, s') → ∃ a s1, m s = (Ok a, s1) ∧ f a s1 = (Ok b, s').
Proof.
  unfold mbind, M_bind. destruct (m s) as [[a|e] s1]; [eauto|done].
Qed.

(** C10: [_make_fake_runs] installs the empty list on every snapshot whose
    summary fields can be read; whatever the snapshot, it either does so or
    raises and leaves the object untouched, since no round of its loops
    appends; and a call [_parse(False)] that returns leaves [_runs] empty. *)
Theorem make_fake_runs_installs_no_runs (py_repr : pyval → string)
    (get_timestamp : pyval → result Z) (remote : string → nat → response)
    (data : pyval) (self0 : PTA) :
  (fake_runs_ok data = true →
   _make_fake_runs py_repr data self0 = (Ok (), set_runs [] self0))
  ∧ (_make_fake_runs py_repr data self0 = (Ok (), set_runs [] self0)
     ∨ ∃ e, _make_fake_runs py_repr data self0 = (Err e, self0))
  ∧ (∀ s s', _parse py_repr get_timestamp remote false s = (Ok (), s') →
             _runs (self s') = []).
Proof.
  split_and!.
  - apply make_fake_runs_ok.
  - apply make_fake_runs_cases.
  - intros s s' H. unfold _parse in H.
    apply M_bind_ok_inv in H as (groups & s1 & _ & H).
    apply M_bind_ok_inv in H as (? & s2 & _ & H).
    apply M_bind_ok_inv in H as (rank & s3 & _ & H).
    apply M_bind_ok_inv in H as (? & s4 & _ & H).
    apply M_bind_ok_inv in H as (? & s5 & _ & H).
    simpl in H. unfold lift_self in H.
    destruct (make_fake_runs_cases py_repr rank (self s5)) as [Hr|[e Hr]];
      rewrite Hr in H; [|done].
    by injection H as <-.
Qed.

Lemma make_fake_runs_installs_no_runs_witness :
  _make_fake_runs Examples.no_repr Examples.rank_three_teams Examples.pta0
  = (Ok (), set_runs [] Examples.pta0)
  ∧ _runs (self (_parse Examples.no_repr Examples.timestamps
                        Examples.preview_remote false
                        (mkEnv Examples.pta0 [])).2) = [].
Proof.
  pose proof (make_fake_runs_installs_no_runs
                Examples.no_repr Examples.timestamps Examples.preview_remote
                Examples.rank_three_teams Examples.pta0) as (H1 & _ & H3).
  split.
  - apply H1. vm_compute. reflexivity.
  - apply (H3 (mkEnv Examples.pta0 [])). vm_compute. reflexivity.
Defined.

(** ** Team parsing *)

Section teams.
Variable py_repr : pyval → string.

(** A round of the loop on a record with all its fields. *)
Lemma parse_teams_record_ok (teams : Teams) (team_ids : gset string)
    (r : pyval) :
  ranking_record_ok r = true →
  ∃ id excluded team,
    record_team_id py_repr r = Ok id
    ∧ record_excluded r = Ok excluded
    ∧ record_team py_repr r = Ok team
    ∧ Team.team_id team = id
    ∧ _parse_teams_record py_repr (teams, team_ids) r
      = Ok (if excluded : bool then (teams, team_ids)
            else (dict_set id team teams, team_ids ∪ {[id]})).
Proof.
  unfold ranking_record_ok. rewrite andb_true_iff.
  intros [(teamFid & HteamFid)%is_ok_true Hinfo].
  destruct (getitem r "teamInfo") as [team_info|] eqn:Hteam_info; [|done].
  simpl in Hinfo. rewrite !andb_true_iff in Hinfo.
  destruct Hinfo as ((teamName & HteamName)%is_ok_true
                     & (members & Hmembers)%is_ok_true
                     & (schoolName & HschoolName)%is_ok_true
                     & (excluded & Hexcluded)%is_ok_true
                     & (girlMajor & HgirlMajor)%is_ok_true
                     & (group_fids & Hgroup_fids)%is_ok_true & _).
  unfold record_team_id, record_excluded, record_team, _parse_teams_record.
  unfold_binds.
  rewrite HteamFid, Hteam_info, HteamName, Hmembers, HschoolName, Hexcluded,
    HgirlMajor, Hgroup_fids.
  eexists _, (py_bool excluded), _. split_and!; try reflexivity.
  by destruct (py_bool excluded).
Qed.

Lemma teams_invariant_step (pre : list pyval) (r : pyval)
    (acc : Teams * gset string) :
  teams_invariant py_repr pre acc →
  ranking_record_ok r = true →
  ∃ acc', _parse_teams_record py_repr acc r = Ok acc'
          ∧ teams_invariant py_repr (pre ++ [r]) acc'.
Proof.
  destruct acc as [teams team_ids].
  intros (Hnodup & Hkeys & Hids & Hteams) Hr.
  destruct (parse_teams_record_ok teams team_ids r Hr)
    as (id & excluded & team & Hid & Hexcluded & Hteam & Hteam_id & ->).
  eexists. split; [done|].
  assert (∀ Q : pyval → Prop,
            (∃ r', r' ∈ pre ++ [r] ∧ Q r')
            ↔ (∃ r', r' ∈ pre ∧ Q r') ∨ Q r) as Hsnoc.
  { intros Q. split.
    - intros (r' & [Hr'| ->%list_elem_of_singleton]%elem_of_app & HQ); eauto.
    - intros [(r' & Hr' & HQ)|HQ]; [exists r'|exists r];
        rewrite elem_of_app, list_elem_of_singleton; eauto. }
  destruct excluded; unfold teams_invariant; simpl.
  - assert (∀ id', ¬ takes_part py_repr r id') as Hnot.
    { intros id' [_ H]. congruence. }
    split_and!; [done| | |].
    + intros id'. rewrite (Hsnoc (λ r, takes_part py_repr r id')), Hkeys.
      specialize (Hnot id'). tauto.
    + intros id'. rewrite (Hsnoc (λ r, takes_part py_repr r id')), Hids.
      specialize (Hnot id'). tauto.
    + intros id' team' Hin. destruct (Hteams _ _ Hin) as (r' & Hr' & H').
      exists r'. rewrite elem_of_app. eauto.
  - assert (∀ id', takes_part py_repr r id' ↔ id' = id) as Htakes.
    { intros id'. unfold takes_part. rewrite Hid, Hexcluded.
      split; [intros [[= ->] _]; done|intros ->; done]. }
    split_and!.
    + by apply NoDup_dict_keys_set.
    + intros id'. rewrite elem_of_dict_keys_set.
      rewrite (Hsnoc (λ r, takes_part py_repr r id')), Hkeys, Htakes.
      tauto.
    + intros id'. rewrite elem_of_union, elem_of_singleton.
      rewrite (Hsnoc (λ r, takes_part py_repr r id')), Hids, Htakes.
      tauto.
    + intros id' team' [[= -> ->]|Hin]%elem_of_dict_set.
      * exists r. rewrite elem_of_app, list_elem_of_singleton. eauto.
      * destruct (Hteams _ _ Hin) as (r' & Hr' & H').
        exists r'. rewrite elem_of_app. eauto.
Qed.

(** A round that does not raise has read every field of its record. *)
Lemma parse_teams_record_reads (acc acc' : Teams * gset string) (r : pyval) :
  _parse_teams_record py_repr acc r = Ok acc' → ranking_record_ok r = true.
Proof.
  destruct acc as [teams team_ids].
  unfold _parse_teams_record, ranking_record_ok. unfold_binds.
  intros H. do 8 next_read H. simpl.
  by rewrite Hread1, Hread2, Hread3, Hread4, Hread5, Hread6.
Qed.

(** [_parse_teams] returns only on the snapshots of the theorem below, and
    when it raises the object is as before. *)
Lemma parse_teams_cases (data : pyval) (self0 self' : PTA) (r : result ()) :
  _parse_teams py_repr data self0 = (r, self') →
  match r with
  | Ok _ => rankings_ok data = true
  | Err _ => self' = self0
  end.
Proof.
  unfold _parse_teams, rankings_ok, ranking_records. unfold_binds.
  destruct (getitem data "xcpcRankings") as [xcpcRankings|];
    [|by intros [= <- <-]].
  destruct (getitem xcpcRankings "rankings") as [rankings|];
    [|by intros [= <- <-]].
  destruct (py_iter rankings) as [rs|]; [|by intros [= <- <-]].
  destruct (fold_result rs ([], ∅) (_parse_teams_record py_repr))
    as [[teams team_ids]|] eqn:Hfold; [|by intros [= <- <-]].
  intros [= <- <-]. clear -Hfold.
  revert Hfold. generalize (([], ∅) : Teams * gset string).
  induction rs as [|r rs IH]; intros acc Hfold; [done|].
  rewrite fold_result_cons in Hfold.
  destruct (_parse_teams_record py_repr acc r) as [acc1|] eqn:Hr; [|done].
  simpl. rewrite (parse_teams_record_reads _ _ _ Hr). by eapply IH.
Qed.

(** C9: on a snapshot whose ranking records carry the fields read,
    [_parse_teams] succeeds and installs a team collection and a set of team
    identifiers that hold exactly the ids of the records whose exclusion
    flag is false; every team of the collection is built from such a
    record, none from an excluded one. *)
Theorem parse_teams_keeps_exactly_non_excluded (data : pyval) (self0 : PTA) :
  rankings_ok data = true →
  ∃ rs teams team_ids,
    ranking_records data = Ok rs
    ∧ _parse_teams py_repr data self0
      = (Ok (), set_team_ids team_ids (set_teams teams self0))
    ∧ NoDup (dict_keys teams)
    ∧ (∀ id, id ∈ dict_keys teams ↔ ∃ r, r ∈ rs ∧ takes_part py_repr r id)
    ∧ (∀ id, id ∈ team_ids ↔ ∃ r, r ∈ rs ∧ takes_part py_repr r id)
    ∧ (∀ id team, (id, team) ∈ teams →
         ∃ r, r ∈ rs ∧ record_excluded r = Ok false
              ∧ record_team py_repr r = Ok team ∧ Team.team_id team = id).
Proof.
  unfold rankings_ok, ranking_records, _parse_teams. unfold_binds.
  destruct (getitem data "xcpcRankings") as [xcpcRankings|]; [|done].
  destruct (getitem xcpcRankings "rankings") as [rankings|]; [|done].
  destruct (py_iter rankings) as [rs|]; [|done].
  intros Hrs.
  destruct (fold_result_invariant (teams_invariant py_repr)
              (λ r, ranking_record_ok r = true)
              (_parse_teams_record py_repr) teams_invariant_step
              rs [] ([], ∅)) as ([teams team_ids] & -> & Hinv).
  - unfold teams_invariant. simpl. split_and!.
    + constructor.
    + intros id. split; [intros []%elem_of_nil|intros (? & []%elem_of_nil & _)].
    + intros id. split; [intros []%elem_of_empty|intros (? & []%elem_of_nil & _)].
    + intros id team []%elem_of_nil.
  - apply Forall_forall. intros r Hr.
    apply (proj1 (forallb_forall _ _) Hrs). by apply list_elem_of_In.
  - exists rs, teams, team_ids. split_and!; [done|done|apply Hinv..].
Qed.
End teams.

Lemma parse_teams_keeps_exactly_non_excluded_witness :
  rankings_ok Examples.rank_three_teams = true
  ∧ ∃ rs teams team_ids,
      ranking_records Examples.rank_three_teams = Ok rs
      ∧ _parse_teams Examples.no_repr Examples.rank_three_teams Examples.pta0
        = (Ok (), set_team_ids team_ids (set_teams teams Examples.pta0))
      ∧ NoDup (dict_keys teams)
      ∧ (∀ id, id ∈ dict_keys teams
               ↔ ∃ r, r ∈ rs ∧ takes_part Examples.no_repr r id)
      ∧ (∀ id, id ∈ team_ids ↔ ∃ r, r ∈ rs ∧ takes_part Examples.no_repr r id)
      ∧ (∀ id team, (id, team) ∈ teams →
           ∃ r, r ∈ rs ∧ record_excluded r = Ok false
                ∧ record_team Examples.no_repr r = Ok team
                ∧ Team.team_id team = id).
Proof.
  split; [vm_compute; reflexivity|].
  apply (parse_teams_keeps_exactly_non_excluded
           Examples.no_repr Examples.rank_three_teams Examples.pta0).
  vm_compute. reflexivity.
Defined.

(** The scenario of three teams: t1 and t2 are kept in the order of the
    snapshot, the excluded t3 is not. *)
Example parse_teams_three_teams :
  let self' := (_parse_teams Examples.no_repr Examples.rank_three_teams
                             Examples.pta0).2 in
  dict_keys (_teams self') = ["t1"; "t2"]
  ∧ elements (_team_ids self') = ["t1"; "t2"].
Proof. split; vm_compute; reflexivity. Qed.

(** ** Submission parsing *)

Section team_runs.
Variable get_timestamp : pyval → result Z.
Variable problem_ids : list (pykey * Z).
Variable team_id : string.

(** A round on a record whose problem is in the mapping appends one
    submission. *)
Lemma parse_team_runs_record_known (runs : Submissions) (submission : pyval) :
  submission_record_ok get_timestamp submission = true →
  problem_known problem_ids submission = true →
  ∃ run,
    _parse_team_runs_record get_timestamp problem_ids team_id runs submission
    = Ok (runs ++ [run])
    ∧ parsed_from get_timestamp problem_ids team_id submission run.
Proof.
  unfold submission_record_ok, problem_known, submission_problem_index.
  rewrite !andb_true_iff.
  intros [[[(status & Hstatus)%is_ok_true Hhash] Htime]
            (submission_id & Hid)%is_ok_true]
         (problem_id & Hproblem)%is_ok_true.
  apply is_ok_true in Htime as (timestamp & Htime).
  unfold parsed_from, submission_problem_index, _parse_team_runs_record.
  unfold_binds.
  destruct (getitem submission "problemSetProblemId") as [pid|]; [|done].
  destruct (getitem submission "submitAt") as [submitAt|]; [|done].
  rewrite Hstatus, Hproblem, Htime, Hid.
  eexists. split; [reflexivity|]. by split_and!.
Qed.

(** A round on a record whose problem is not in the mapping raises the
    [KeyError] of the subscript. *)
Lemma parse_team_runs_record_unknown (runs : Submissions)
    (submission : pyval) :
  submission_record_ok get_timestamp submission = true →
  problem_known problem_ids submission = false →
  ∃ problem,
    getitem submission "problemSetProblemId" = Ok problem
    ∧ _parse_team_runs_record get_timestamp problem_ids team_id runs
                              submission
      = Err (UnknownProblemError problem).
Proof.
  unfold submission_record_ok, problem_known, submission_problem_index.
  rewrite !andb_true_iff.
  intros [[[(status & Hstatus)%is_ok_true Hhash] _] _] Hunknown.
  unfold _parse_team_runs_record, UnknownProblemError. unfold_binds.
  rewrite Hstatus.
  destruct (getitem submission "problemSetProblemId") as [pid|]; [|done].
  exists pid. split; [done|].
  unfold dict_subscript in *. unfold_binds.
  destruct (hashkey pid) as [key|]; [|done].
  by destruct (dict_get key problem_ids).
Qed.

Lemma parse_team_runs_all_known (submissions : list pyval)
    (runs : Submissions) :
  Forall (λ sub, submission_record_ok get_timestamp sub = true) submissions →
  Forall (λ sub, problem_known problem_ids sub = true) submissions →
  ∃ runs',
    fold_result submissions runs
      (_parse_team_runs_record get_timestamp problem_ids team_id)
    = Ok (runs ++ runs')
    ∧ Forall2 (parsed_from get_timestamp problem_ids team_id)
              submissions runs'.
Proof.
  revert runs. induction submissions as [|sub subs IH]; intros runs Hok Hknown.
  - exists []. by rewrite app_nil_r.
  - apply Forall_cons in Hok as [Hsub Hsubs].
    apply Forall_cons in Hknown as [Hk Hks].
    destruct (parse_team_runs_record_known runs sub Hsub Hk)
      as (run & Hrun & Hfrom).
    destruct (IH (runs ++ [run]) Hsubs Hks) as (runs' & Hfold & Hall).
    exists (run :: runs'). rewrite fold_result_cons, Hrun, Hfold.
    split; [by rewrite <- app_assoc|by constructor].
Qed.

Lemma parse_team_runs_some_unknown (submissions : list pyval)
    (runs : Submissions) :
  Forall (λ sub, submission_record_ok get_timestamp sub = true) submissions →
  Exists (λ sub, problem_known problem_ids sub = false) submissions →
  ∃ sub problem,
    sub ∈ submissions
    ∧ problem_known problem_ids sub = false
    ∧ getitem sub "problemSetProblemId" = Ok problem
    ∧ fold_result submissions runs
        (_parse_team_runs_record get_timestamp problem_ids team_id)
      = Err (UnknownProblemError problem).
Proof.
  revert runs.
  induction submissions as [|sub subs IH]; intros runs Hok Hunknown.
  - by apply Exists_nil in Hunknown.
  - apply Forall_cons in Hok as [Hsub Hsubs].
    rewrite fold_result_cons.
    destruct (problem_known problem_ids sub) eqn:Hk.
    + destruct (parse_team_runs_record_known runs sub Hsub Hk)
        as (run & -> & _).
      apply Exists_cons in Hunknown as [Hhd|Htl]; [congruence|].
      destruct (IH (runs ++ [run]) Hsubs Htl) as (s & p & Hin & H).
      exists s, p. split; [by right|done].
    + destruct (parse_team_runs_record_unknown runs sub Hsub Hk)
        as (p & Hp & ->).
      exists sub, p. split; [left|done].
Qed.
(** Whatever the record, a round that does not raise appends the submission
    built from it. *)
Lemma parse_team_runs_record_inv (runs runs' : Submissions)
    (submission : pyval) :
  _parse_team_runs_record get_timestamp problem_ids team_id runs submission
  = Ok runs' →
  ∃ run,
    runs' = runs ++ [run]
    ∧ parsed_from get_timestamp problem_ids team_id submission run.
Proof.
  unfold _parse_team_runs_record, parsed_from, submission_problem_index.
  unfold_binds. intros H. do 6 next_read H. injection H as <-.
  eexists. split; [reflexivity|]. by split_and!.
Qed.

Lemma parse_team_runs_fold_inv (submissions : list pyval)
    (runs runs' : Submissions) :
  fold_result submissions runs
    (_parse_team_runs_record get_timestamp problem_ids team_id)
  = Ok runs' →
  ∃ new,
    runs' = runs ++ new
    ∧ Forall2 (parsed_from get_timestamp problem_ids team_id) submissions new.
Proof.
  revert runs. induction submissions as [|sub subs IH]; intros runs H.
  - injection H as <-. exists []. split; [by rewrite app_nil_r|constructor].
  - rewrite fold_result_cons in H.
    destruct (_parse_team_runs_record _ _ _ runs sub) as [runs1|] eqn:Hsub;
      [|done].
    apply parse_team_runs_record_inv in Hsub as (run & -> & Hrun).
    apply IH in H as (new & -> & Hnew).
    exists (run :: new). split; [by rewrite <- app_assoc|by constructor].
Qed.
End team_runs.

Lemma parse_team_runs_fold (get_timestamp : pyval → result Z) (data : pyval)
    (team_id : string) (self0 : PTA) (submissions : list pyval) :
  submission_records data = Ok submissions →
  _parse_team_runs get_timestamp data team_id self0
  = (fold_result submissions []
       (_parse_team_runs_record get_timestamp (_problem_ids self0) team_id),
     self0).
Proof.
  unfold submission_records, _parse_team_runs, get. unfold_binds.
  destruct (getitem data "submissions") as [v|]; [|done].
  by intros ->.
Qed.

(** C7: on a payload whose records carry the fields read, a record naming a
    problem outside the retained mapping makes [_parse_team_runs] raise the
    [KeyError] of the lookup for such a problem id (the specification's
    [UnknownProblemError]), with no result and the object unchanged; when
    every record names a problem of the mapping, the call returns one
    [Submission] per record.  On any payload, a call that returns has built
    one [Submission] from each record, in order, each with its problem
    resolved through the mapping: no record is dropped. *)
Theorem parse_team_runs_unknown_problem_raises
    (get_timestamp : pyval → result Z) (data : pyval) (team_id : string)
    (self0 : PTA) (submissions : list pyval) :
  submission_records data = Ok submissions →
  (Forall (λ sub, submission_record_ok get_timestamp sub = true) submissions →
   Exists (λ sub, problem_known (_problem_ids self0) sub = false) submissions →
   ∃ sub problem,
     sub ∈ submissions
     ∧ problem_known (_problem_ids self0) sub = false
     ∧ getitem sub "problemSetProblemId" = Ok problem
     ∧ _parse_team_runs get_timestamp data team_id self0
       = (Err (UnknownProblemError problem), self0))
  ∧ (Forall (λ sub, submission_record_ok get_timestamp sub = true) submissions →
     Forall (λ sub, problem_known (_problem_ids self0) sub = true) submissions →
     ∃ runs,
       _parse_team_runs get_timestamp data team_id self0 = (Ok runs, self0))
  ∧ (∀ runs s,
       _parse_team_runs get_timestamp data team_id self0 = (Ok runs, s) →
       length runs = length submissions
       ∧ Forall2 (parsed_from get_timestamp (_problem_ids self0) team_id)
                 submissions runs).
Proof.
  intros Hdata. rewrite (parse_team_runs_fold _ _ _ _ _ Hdata). split_and!.
  - intros Hok Hunknown.
    destruct (parse_team_runs_some_unknown get_timestamp (_problem_ids self0)
                team_id submissions [] Hok Hunknown)
      as (sub & problem & Hin & Hk & Hp & ->).
    by exists sub, problem.
  - intros Hok Hknown.
    destruct (parse_team_runs_all_known get_timestamp (_problem_ids self0)
                team_id submissions [] Hok Hknown)
      as (runs & -> & Hall).
    by exists runs.
  - intros runs s [= Hfold _].
    apply parse_team_runs_fold_inv in Hfold as (new & -> & Hnew).
    split; [|done]. symmetry. by eapply Forall2_length.
Qed.

Lemma parse_team_runs_unknown_problem_raises_witness :
  (∃ sub problem,
     sub ∈ Examples.t1_unknown_records
     ∧ problem_known (_problem_ids Examples.pta_p1) sub = false
     ∧ getitem sub "problemSetProblemId" = Ok problem
     ∧ _parse_team_runs Examples.timestamps Examples.t1_unknown_problem "t1"
                        Examples.pta_p1
       = (Err (UnknownProblemError problem), Examples.pta_p1))
  ∧ ∃ runs,
      _parse_team_runs Examples.timestamps Examples.t1_known_problems "t1"
                       Examples.pta_p1
      = (Ok runs, Examples.pta_p1)
      ∧ length runs = length Examples.t1_known_records
      ∧ Forall2 (parsed_from Examples.timestamps
                             (_problem_ids Examples.pta_p1) "t1")
                Examples.t1_known_records runs.
Proof.
  split.
  - apply (parse_team_runs_unknown_problem_raises
             Examples.timestamps Examples.t1_unknown_problem "t1"
             Examples.pta_p1 Examples.t1_unknown_records eq_refl).
    + repeat constructor.
    + apply Exists_cons_tl, Exists_cons_hd. reflexivity.
  - destruct (parse_team_runs_unknown_problem_raises
                Examples.timestamps Examples.t1_known_problems "t1"
                Examples.pta_p1 Examples.t1_known_records eq_refl)
      as (_ & Hok & Hinv).
    destruct Hok as (runs & Hruns); [repeat constructor..|].
    exists runs. split; [done|]. by apply (Hinv runs Examples.pta_p1).
Defined.

(** The scenario of the unknown problem "p9": the error carries "p9". *)
Example parse_team_runs_p9 :
  _parse_team_runs Examples.timestamps Examples.t1_unknown_problem "t1"
                   Examples.pta_p1
  = (Err (UnknownProblemError (PStr "p9")), Examples.pta_p1).
Proof. vm_compute. reflexivity. Qed.

(** ** The sweep over all teams *)

Lemma fold_extend_some {A} (per_team : list (list A)) (all : list A) :
  fold_result (Some <$> per_team) all extend = Ok (all ++ concat per_team).
Proof.
  revert all. induction per_team as [|l per_team IH]; intros all; simpl.
  - by rewrite app_nil_r.
  - unfold_binds. rewrite IH. by rewrite <- app_assoc.
Qed.

Section sweep.
Variable get_timestamp : pyval → result Z.
Variable remote : string → nat → response.

Lemma first_attempt_some (self0 : PTA) (tr : list event) (team_id : string)
    (r : option Submissions) :
  first_attempt get_timestamp remote self0 tr team_id = Ok r →
  ∃ runs, r = Some runs.
Proof.
  unfold first_attempt. unfold_binds. intros H. do 2 next_read H.
  injection H as <-. eauto.
Qed.

Lemma process_batch_ok (batch : list Team.t) (s s' : Env)
    (rs : list (option Submissions)) :
  _process_team_runs_batch get_timestamp remote batch s = (Ok rs, s') →
  self s' = self s
  ∧ trace s'
    = trace s
        ++ ((λ team, Get (team_submissions_url (_contest_id (self s))
                                               (Team.team_id team)))
              <$> batch)
  ∧ ∃ per_team,
      rs = Some <$> per_team
      ∧ Forall2 (fetched get_timestamp remote) batch per_team.
Proof.
  unfold _process_team_runs_batch. revert s rs.
  induction batch as [|team batch IH]; intros s rs H.
  - injection H as <- <-. rewrite app_nil_r.
    split_and!; [done..|]. exists []. split; [done|constructor].
  - rewrite fmap_cons in H. cbn [gather] in H.
    apply M_bind_ok_inv in H as (r & s1 & Hteam & H).
    apply M_bind_ok_inv in H as (rest & s2 & Hrest & H).
    injection H as <- <-.
    pose proof Hteam as Hfetched.
    rewrite fetch_and_parse_first_attempt in Hteam.
    injection Hteam as Hr <-.
    apply first_attempt_some in Hr as (runs & ->).
    apply IH in Hrest as (Hself & Htrace & per_team & -> & Hall).
    simpl in *. split_and!; [done| |].
    + rewrite Htrace, <- app_assoc. done.
    + exists (runs :: per_team). split; [done|].
      constructor; [|done]. eexists s, _. exact Hfetched.
Qed.

Lemma parse_batch_ok (teams : list Team.t) (all all' : Submissions) (k : nat)
    (s s' : Env) :
  _parse_batch get_timestamp remote 100 teams all (100 * k) s = (Ok all', s') →
  self s' = self s
  ∧ trace s' = trace s ++ batch_trace (_contest_id (self s)) teams k
  ∧ ∃ per_team,
      all' = all ++ concat per_team
      ∧ Forall2 (fetched get_timestamp remote) (batch_of 100 teams k) per_team.
Proof.
  unfold _parse_batch. intros H.
  apply M_bind_ok_inv in H as ([] & s1 & Hpause & H).
  rewrite islice_batch_of in H.
  apply M_bind_ok_inv in H as (rs & s2 & Hbatch & H).
  apply M_bind_ok_inv in H as (all1 & s3 & Hextend & H).
  apply M_bind_ok_inv in H as ([] & s4 & Hlog & H).
  injection H as <- <-.
  apply process_batch_ok in Hbatch as (Hself2 & Htrace2 & per_team & -> & Hall).
  rewrite fold_extend_some in Hextend. injection Hextend as <- <-.
  injection Hlog as <-.
  assert (self s1 = self s
          ∧ trace s1
            = trace s ++ (if bool_decide (0 < k)%nat then [Sleep 1] else []))
    as [Hself1 Htrace1].
  { destruct k as [|k].
    - rewrite Nat.mul_0_r in Hpause. injection Hpause as <-.
      by rewrite app_nil_r.
    - rewrite bool_decide_eq_true_2 in Hpause by lia.
      injection Hpause as <-.
      by rewrite bool_decide_eq_true_2 by lia. }
  cbn [self trace]. split_and!.
  - congruence.
  - unfold batch_trace. rewrite Htrace2, Htrace1, Hself1.
    by rewrite <- !app_assoc.
  - by exists per_team.
Qed.

Lemma batches_ok (teams : list Team.t) (m a : nat) (all all' : Submissions)
    (s s' : Env) :
  for_fold ((λ k, 100 * k)%nat <$> seq a m) all
           (_parse_batch get_timestamp remote 100 teams) s
  = (Ok all', s') →
  self s' = self s
  ∧ trace s'
    = trace s ++ concat (batch_trace (_contest_id (self s)) teams <$> seq a m)
  ∧ ∃ per_team,
      all' = all ++ concat per_team
      ∧ Forall2 (fetched get_timestamp remote)
                (concat (batch_of 100 teams <$> seq a m)) per_team.
Proof.
  revert a all s. induction m as [|m IH]; intros a all s H.
  - injection H as <- <-. rewrite !app_nil_r.
    split_and!; [done..|]. exists []. split; [by rewrite app_nil_r|constructor].
  - cbn [seq] in H. rewrite fmap_cons, for_fold_cons in H.
    destruct (_parse_batch _ _ _ _ _ _ s) as [[all1|e] s1] eqn:Hbatch; [|done].
    apply parse_batch_ok in Hbatch
      as (Hself1 & Htrace1 & per_team1 & -> & Hall1).
    apply IH in H as (Hself & Htrace & per_team & -> & Hall).
    cbn [seq]. rewrite !fmap_cons. cbn [concat]. split_and!.
    + congruence.
    + rewrite Htrace, Htrace1, Hself1. by rewrite <- app_assoc.
    + exists (per_team1 ++ per_team). split.
      * by rewrite concat_app, app_assoc.
      * by apply Forall2_app.
Qed.

(** The sweep, when it returns: the trace grows by the trace of the batches
    in order, and the runs installed are the sorted concatenation of what
    was fetched team by team. *)
Lemma parse_fetch_runs_ok (s s' : Env) :
  _parse_fetch_runs get_timestamp remote s = (Ok (), s') →
  let teams := dict_values (_teams (self s)) in
  trace s' = trace s ++ sweep_trace (_contest_id (self s)) teams
  ∧ ∃ per_team,
      Forall2 (fetched get_timestamp remote) teams per_team
      ∧ _runs (self s')
        = list_sort_by Submission.timestamp (concat per_team).
Proof.
  intros H teams. unfold _parse_fetch_runs in H.
  apply M_bind_ok_inv in H as (s0 & s1 & Hget & H).
  injection Hget as -> ->. fold teams in H.
  apply M_bind_ok_inv in H as (all & s2 & Hloop & H).
  rewrite range_spec in Hloop by lia.
  apply batches_ok in Hloop as (Hself & Htrace & per_team & -> & Hall).
  rewrite concat_batches in Hall by lia.
  unfold lift_self, modify in H. injection H as <-.
  cbn [self trace]. split; [done|].
  exists per_team. by split.
Qed.

(** C5: when the sweep returns, the runs it installs are those fetched for
    the teams, one list per team in the order of the team list, concatenated
    and sorted by timestamp: non-decreasing, a permutation of the
    concatenation, and for each timestamp the submissions carrying it appear
    in the order of the concatenation. *)
Theorem sweep_installs_stably_sorted_runs (s s' : Env) :
  _parse_fetch_runs get_timestamp remote s = (Ok (), s') →
  ∃ per_team : list Submissions,
    Forall2 (fetched get_timestamp remote)
            (dict_values (_teams (self s))) per_team
    ∧ StronglySorted (key_le Submission.timestamp) (_runs (self s'))
    ∧ _runs (self s') ≡ₚ concat per_team
    ∧ ∀ t, with_key Submission.timestamp t (_runs (self s'))
           = with_key Submission.timestamp t (concat per_team).
Proof.
  intros H. apply parse_fetch_runs_ok in H as (_ & per_team & Hall & ->).
  exists per_team. split_and!.
  - done.
  - apply list_sort_by_sorted.
  - apply list_sort_by_perm.
  - intros t. apply list_sort_by_stable.
Qed.

Lemma emit_eq (e : event) (s : Env) :
  emit e s = (Ok (), mkEnv (self s) (trace s ++ [e])).
Proof. reflexivity. Qed.

Lemma process_batch_succeeds (batch : list Team.t) (s : Env) :
  always_served get_timestamp remote (self s) batch →
  ∃ rs s', _process_team_runs_batch get_timestamp remote batch s = (Ok rs, s').
Proof.
  unfold _process_team_runs_batch. revert s.
  induction batch as [|team batch IH]; intros s Hserved; [by eexists _, _|].
  rewrite fmap_cons. cbn [gather]. unfold mbind at 1. unfold M_bind at 1.
  rewrite fetch_and_parse_first_attempt.
  destruct (is_ok_true _ (Hserved team (trace s) ltac:(left))) as (r & ->).
  unfold mbind at 1. unfold M_bind at 1.
  match goal with
  | |- context [gather _ ?s1] => destruct (IH s1) as (rs & s' & ->)
  end; [|by eexists _, _].
  intros team' tr Hin. apply Hserved. by right.
Qed.

Lemma parse_batch_succeeds (teams : list Team.t) (all : Submissions) (k : nat)
    (s : Env) :
  always_served get_timestamp remote (self s) teams →
  ∃ all' s',
    _parse_batch get_timestamp remote 100 teams all (100 * k) s = (Ok all', s').
Proof.
  intros Hserved. unfold _parse_batch.
  unfold mbind at 1. unfold M_bind at 1.
  assert (∃ s1, (if bool_decide (0 < 100 * k)%nat then emit (Sleep 1)
                 else mret ()) s = (Ok (), s1) ∧ self s1 = self s)
    as (s1 & -> & Hself1).
  { case_bool_decide; by eexists. }
  rewrite islice_batch_of.
  unfold mbind at 1. unfold M_bind at 1.
  destruct (process_batch_succeeds (batch_of 100 teams k) s1)
    as (rs & s2 & Hbatch).
  { intros team tr Hin. rewrite Hself1. apply Hserved.
    unfold batch_of in Hin.
    by apply subseteq_take, subseteq_drop in Hin. }
  rewrite Hbatch.
  apply process_batch_ok in Hbatch as (_ & _ & per_team & -> & _).
  unfold mbind at 1. unfold M_bind at 1. unfold liftR.
  rewrite fold_extend_some. by eexists _, _.
Qed.

Lemma batches_succeed (teams : list Team.t) (m a : nat) (all : Submissions)
    (s : Env) :
  always_served get_timestamp remote (self s) teams →
  ∃ all' s',
    for_fold ((λ k, 100 * k)%nat <$> seq a m) all
             (_parse_batch get_timestamp remote 100 teams) s
    = (Ok all', s').
Proof.
  revert a all s. induction m as [|m IH]; intros a all s Hserved;
    [by eexists _, _|].
  cbn [seq]. rewrite fmap_cons, for_fold_cons.
  destruct (parse_batch_succeeds teams all a s Hserved)
    as (all1 & s1 & Hbatch).
  rewrite Hbatch. apply parse_batch_ok in Hbatch as (Hself1 & _).
  apply IH. by rewrite Hself1.
Qed.

(** The sweep returns when every team is served. *)
Lemma parse_fetch_runs_succeeds (s : Env) :
  always_served get_timestamp remote (self s) (dict_values (_teams (self s))) →
  ∃ s', _parse_fetch_runs get_timestamp remote s = (Ok (), s').
Proof.
  intros Hserved. unfold _parse_fetch_runs.
  unfold mbind at 1. unfold M_bind at 1. unfold get at 1.
  unfold mbind at 1. unfold M_bind at 1.
  rewrite range_spec by lia.
  edestruct batches_succeed as (all & s1 & ->); [exact Hserved|].
  by eexists.
Qed.

(** C6: when every team is served, the sweep returns and its trace is that
    of [ceil(N / 100)] batches taken in order, the k-th being teams [100 k]
    to [100 k + 99] of the list, each preceded by a pause of one second
    except the first; the batches concatenate to the team list, all but the
    last have 100 teams and the last has between 1 and 100. *)
Theorem sweep_batches_and_pauses (s : Env) :
  let teams := dict_values (_teams (self s)) in
  let n := ceil_div (length teams) 100 in
  always_served get_timestamp remote (self s) teams →
  ∃ s',
    _parse_fetch_runs get_timestamp remote s = (Ok (), s')
    ∧ trace s' = trace s ++ sweep_trace (_contest_id (self s)) teams
    ∧ concat (batch_of 100 teams <$> seq 0 n) = teams
    ∧ (∀ k, (S k < n)%nat → length (batch_of 100 teams k) = 100%nat)
    ∧ (∀ k, S k = n → (0 < length (batch_of 100 teams k) ≤ 100)%nat).
Proof.
  intros teams n Hserved.
  destruct (parse_fetch_runs_succeeds s Hserved) as (s' & H).
  exists s'. split; [done|].
  apply parse_fetch_runs_ok in H as (Htrace & _).
  split_and!.
  - done.
  - apply concat_batches. lia.
  - intros k Hk. apply full_batch_length; [lia|done].
  - intros k Hk. apply last_batch_length; [lia|done].
Qed.
End sweep.

Lemma sweep_installs_stably_sorted_runs_witness :
  let s' := (_parse_fetch_runs Examples.timestamps Examples.abc_remote
                               Examples.abc_env).2 in
  ∃ per_team : list Submissions,
    Forall2 (fetched Examples.timestamps Examples.abc_remote)
            (dict_values (_teams (self Examples.abc_env))) per_team
    ∧ StronglySorted (key_le Submission.timestamp) (_runs (self s'))
    ∧ _runs (self s') ≡ₚ concat per_team
    ∧ ∀ t, with_key Submission.timestamp t (_runs (self s'))
           = with_key Submission.timestamp t (concat per_team).
Proof.
  apply (sweep_installs_stably_sorted_runs
           Examples.timestamps Examples.abc_remote Examples.abc_env).
  vm_compute. reflexivity.
Defined.

(** Teams a, b, c: the submissions of equal time keep the order a, b, c of
    the concatenation. *)
Example sweep_abc_order :
  Submission.submission_id
    <$> _runs (self (_parse_fetch_runs Examples.timestamps Examples.abc_remote
                                       Examples.abc_env).2)
  = PStr <$> ["a2"; "c1"; "b1"; "a1"; "b2"; "c2"].
Proof. vm_compute. reflexivity. Qed.

Lemma sweep_batches_and_pauses_witness :
  let s := Examples.env_250 in
  let teams := dict_values (_teams (self s)) in
  let n := ceil_div (length teams) 100 in
  ∃ s',
    _parse_fetch_runs Examples.timestamps Examples.quiet_remote s = (Ok (), s')
    ∧ trace s' = trace s ++ sweep_trace (_contest_id (self s)) teams
    ∧ concat (batch_of 100 teams <$> seq 0 n) = teams
    ∧ (∀ k, (S k < n)%nat → length (batch_of 100 teams k) = 100%nat)
    ∧ (∀ k, S k = n → (0 < length (batch_of 100 teams k) ≤ 100)%nat).
Proof.
  apply (sweep_batches_and_pauses
           Examples.timestamps Examples.quiet_remote Examples.env_250).
  intros team tr _. reflexivity.
Defined.

(** 250 teams: batches of 100, 100 and 50 teams, a pause before the second
    and the third and none before the first. *)
Example sweep_250_teams :
  let teams := dict_values (_teams (self Examples.env_250)) in
  ceil_div (length teams) 100 = 3%nat
  ∧ (λ k, length (batch_of 100 teams k)) <$> seq 0 3 = [100; 100; 50]%nat
  ∧ filter (λ e, is_request e = false)
           (trace (_parse_fetch_runs Examples.timestamps Examples.quiet_remote
                                     Examples.env_250).2)
    = [ LogInfo "Processed 100 teams"; Sleep 1;
        LogInfo "Processed 200 teams"; Sleep 1;
        LogInfo "Processed 250 teams" ].
Proof. split_and!; vm_compute; reflexivity. Qed.

(** * Further properties of the code *)

(** ** [Contest.fill_problem_id] and [Contest.fill_balloon_color] *)

Lemma letters_alphabet (n : nat) :
  (n ≤ 26)%nat → Contest.letter <$> seq 0 n = take n alphabet.
Proof.
  intros Hn.
  change alphabet with (Contest.letter <$> seq 0 26).
  rewrite <- fmap_take, take_seq. do 2 f_equal. lia.
Qed.

#[local] Instance PStr_inj : Inj (=) (=) PStr.
Proof. by intros x y [= ->]. Qed.

Lemma NoDup_alphabet : NoDup alphabet.
Proof.
  unfold alphabet. apply (NoDup_fmap_2 _).
  compute_done.
Qed.

Lemma fill_problem_id_length (c : Contest.t) :
  length (Contest.problem_id (Contest.fill_problem_id c))
  = Z.to_nat (Contest.problem_quantity c).
Proof. destruct c; simpl. by rewrite length_fmap, length_seq. Qed.

Lemma fill_balloon_color_size (c : Contest.t) :
  Z.of_nat (length (Contest.balloon_color (Contest.fill_balloon_color c)))
  = if 0 <=? Contest.problem_quantity c
    then Z.min (Contest.problem_quantity c) 13
    else Z.max 0 (13 + Contest.problem_quantity c).
Proof.
  destruct c; simpl. unfold Contest.slice_to.
  change (length Contest.default_balloon_color_list) with 13%nat.
  destruct (Z.leb_spec 0 problem_quantity);
    rewrite length_take;
    change (length Contest.default_balloon_color_list) with 13%nat; lia.
Qed.

Lemma ord_letter (i : nat) :
  (i ≤ 190)%nat → py_ord (Contest.letter i) = Ok (65 + Z.of_nat i).
Proof.
  intros Hi. unfold Contest.letter, py_ord.
  rewrite nat_ascii_embedding by lia. f_equal. lia.
Qed.

Lemma letter_inj (i j : nat) :
  (i ≤ 190)%nat → (j ≤ 190)%nat →
  Contest.letter i = Contest.letter j → i = j.
Proof.
  intros Hi Hj Heq.
  pose proof (ord_letter i Hi) as Hoi. pose proof (ord_letter j Hj) as Hoj.
  rewrite Heq, Hoj in Hoi. injection Hoi as Hoi. lia.
Qed.

(** For a [problem_quantity] up to 191, [fill_problem_id] writes as many
    labels as [problem_quantity] says (none when it is negative); the i-th
    is a one-character string with [ord] equal to [ord('A') + i]; the labels
    are pairwise distinct, and up to 26 problems they are the first letters
    of the alphabet. *)
Theorem fill_problem_id_labels (c : Contest.t) :
  Contest.problem_quantity c ≤ 191 →
  let labels := Contest.problem_id (Contest.fill_problem_id c) in
  length labels = Z.to_nat (Contest.problem_quantity c)
  ∧ (∀ i label, labels !! i = Some label →
                py_ord label = Ok (65 + Z.of_nat i))
  ∧ NoDup labels
  ∧ (Contest.problem_quantity c ≤ 26 →
     labels = take (Z.to_nat (Contest.problem_quantity c)) alphabet).
Proof.
  intros Hq. split_and!; [apply fill_problem_id_length|..];
    destruct c; simpl in *.
  - intros i label. rewrite list_lookup_fmap.
    destruct (seq 0 (Z.to_nat problem_quantity) !! i) as [j|] eqn:Hj;
      [|done].
    apply lookup_seq in Hj as [-> Hi]. intros [= <-].
    apply ord_letter. lia.
  - apply NoDup_fmap_2_strong; [|apply NoDup_seq].
    intros i j [_ Hi]%elem_of_seq [_ Hj]%elem_of_seq.
    apply letter_inj; lia.
  - intros Hq26. by rewrite letters_alphabet by lia.
Qed.

Lemma fill_problem_id_labels_witness :
  let labels :=
    Contest.problem_id
      (Contest.fill_problem_id (Contest.set_problem_quantity 3 Contest.init))
  in
  labels = [PStr "A"; PStr "B"; PStr "C"]
  ∧ NoDup labels
  ∧ ∀ i label, labels !! i = Some label → py_ord label = Ok (65 + Z.of_nat i).
Proof.
  destruct (fill_problem_id_labels
              (Contest.set_problem_quantity 3 Contest.init))
    as (_ & Hord & Hnodup & H); [vm_compute; discriminate|].
  split_and!; [|exact Hnodup|exact Hord].
  rewrite H; [reflexivity|vm_compute; discriminate].
Defined.

(** [fill_balloon_color] takes a prefix of the 13 default colours: as many
    as [problem_quantity] says when that is between 0 and 13, all 13 when
    it is larger, and all but the last [-problem_quantity] when it is
    negative. *)
Theorem fill_balloon_color_length (c : Contest.t) :
  let q := Contest.problem_quantity c in
  let colors := Contest.balloon_color (Contest.fill_balloon_color c) in
  colors `prefix_of` Contest.default_balloon_color_list
  ∧ Z.of_nat (length colors)
    = if 0 <=? q then Z.min q 13 else Z.max 0 (13 + q).
Proof.
  split; [|apply fill_balloon_color_size].
  destruct c; simpl. unfold Contest.slice_to.
  destruct (0 <=? _); apply prefix_take.
Qed.

(** For a [problem_quantity] up to 191 the two fills commute and keep
    [problem_quantity]; after both, a contest with 0 to 13 problems has one
    label and one colour per problem, while with 14 to 191 problems the
    colours stop at 13 and the labels go on. *)
Theorem fill_both_lengths (c : Contest.t) :
  let q := Contest.problem_quantity c in
  let c' := Contest.fill_balloon_color (Contest.fill_problem_id c) in
  q ≤ 191 →
  Contest.fill_problem_id (Contest.fill_balloon_color c) = c'
  ∧ Contest.problem_quantity c' = q
  ∧ (0 ≤ q ≤ 13 →
     Z.of_nat (length (Contest.problem_id c')) = q
     ∧ Z.of_nat (length (Contest.balloon_color c')) = q)
  ∧ (13 < q →
     Z.of_nat (length (Contest.problem_id c')) = q
     ∧ Z.of_nat (length (Contest.balloon_color c')) = 13).
Proof.
  intros q c' _.
  pose proof (fill_balloon_color_size (Contest.fill_problem_id c)) as Hc.
  pose proof (fill_problem_id_length c) as Hl.
  assert (Contest.problem_quantity (Contest.fill_problem_id c) = q) as Hq
    by (by destruct c).
  rewrite Hq in Hc. fold c' in Hc.
  assert (Contest.problem_id c'
          = Contest.problem_id (Contest.fill_problem_id c)) as Hid
    by (by destruct c).
  split_and!.
  - by destruct c.
  - by destruct c.
  - intros Hrange. rewrite Hid, Hl, Hc.
    rewrite (proj2 (Z.leb_le 0 q)) by lia. fold q. lia.
  - intros Hrange. rewrite Hid, Hl, Hc.
    rewrite (proj2 (Z.leb_le 0 q)) by lia. fold q. lia.
Qed.

Lemma fill_both_lengths_witness :
  let c3 := Contest.set_problem_quantity 3 Contest.init in
  let c14 := Contest.set_problem_quantity 14 Contest.init in
  (Z.of_nat (length (Contest.problem_id
                       (Contest.fill_balloon_color
                          (Contest.fill_problem_id c3)))) = 3
   ∧ Z.of_nat (length (Contest.balloon_color
                         (Contest.fill_balloon_color
                            (Contest.fill_problem_id c3)))) = 3)
  ∧ (Z.of_nat (length (Contest.problem_id
                         (Contest.fill_balloon_color
                            (Contest.fill_problem_id c14)))) = 14
     ∧ Z.of_nat (length (Contest.balloon_color
                           (Contest.fill_balloon_color
                              (Contest.fill_problem_id c14)))) = 13).
Proof.
  intros c3 c14. split.
  - apply (fill_both_lengths c3); [vm_compute; discriminate|].
    vm_compute. split; discriminate.
  - apply (fill_both_lengths c14); [vm_compute; discriminate|]. reflexivity.
Defined.

(** ** [_parse_groups] *)

Lemma fold_result_app {A B} (xs ys : list A) (acc : B)
    (body : B → A → result B) :
  fold_result (xs ++ ys) acc body
  = acc' ← fold_result xs acc body; fold_result ys acc' body.
Proof.
  revert acc. induction xs as [|x xs IH]; intros acc; simpl; [done|].
  unfold_binds. destruct (body acc x); [apply IH|done].
Qed.

(** A round of the loop of [_parse_groups]. *)
Lemma parse_groups_round (g : pyval) :
  group_record_ok g = true →
  ∃ d name fid key,
    g = PDict d ∧ getitem g "name" = Ok name ∧ getitem g "fid" = Ok fid
    ∧ hashkey fid = Ok key
    ∧ (name ← getitem g "name"; fid ← getitem g "fid"; setitem g fid name)
      = Ok (PDict (dict_set key name d)).
Proof.
  unfold group_record_ok. rewrite andb_true_iff.
  intros [(name & Hname)%is_ok_true (key & Hkey)%is_ok_true].
  unfold_binds.
  destruct (getitem g "fid") as [fid|] eqn:Hfid; [|done].
  destruct g as [| | | | |d]; try discriminate Hname.
  exists d, name, fid, key. rewrite Hname. simpl. unfold_binds.
  by rewrite Hkey.
Qed.

(** On a payload whose group records all carry a [name] and a hashable
    [fid], the contest receives the last record of the list, with its own
    [fid] added as a key for its name: nothing of the earlier records
    reaches the contest. *)
Theorem parse_groups_keeps_last_record (data groups : pyval)
    (records : list pyval) (last : pyval) (self0 : PTA) :
  getitem data "groups" = Ok groups →
  py_iter groups = Ok (records ++ [last]) →
  Forall (λ g, group_record_ok g = true) (records ++ [last]) →
  ∃ d name fid key,
    last = PDict d ∧ getitem last "name" = Ok name
    ∧ getitem last "fid" = Ok fid ∧ hashkey fid = Ok key
    ∧ _parse_groups data self0
      = (Ok (),
         set_contest (Contest.set_group (PDict (dict_set key name d))) self0).
Proof.
  intros Hgroups Hiter [Hrecords [Hlast _]%Forall_cons]%Forall_app.
  destruct (parse_groups_round last Hlast)
    as (d & name & fid & key & -> & Hname & Hfid & Hkey & Hround).
  exists d, name, fid, key. split_and!; [done..|].
  unfold _parse_groups. unfold mbind at 1. unfold M_bind at 1. unfold liftR.
  rewrite Hgroups. unfold mbind at 1. unfold M_bind at 1. rewrite Hiter.
  unfold mbind at 1. unfold M_bind at 1.
  rewrite fold_result_app.
  destruct (fold_result_invariant (λ _ _, True)
              (λ g, group_record_ok g = true)
              (λ _ group : pyval,
                 name ← getitem group "name";
                 fid ← getitem group "fid";
                 setitem group fid name)
              ltac:(intros pre g acc _ Hg;
                    destruct (parse_groups_round g Hg)
                      as (? & ? & ? & ? & _ & _ & _ & _ & ->); eauto)
              records [] (PDict []) I Hrecords) as (acc & -> & _).
  unfold mbind at 1. unfold result_bind at 1.
  rewrite fold_result_cons. rewrite Hround. reflexivity.
Qed.

Lemma parse_groups_keeps_last_record_witness :
  ∃ d name fid key,
    obj [ ("fid", PStr "g2"); ("name", PStr "Beta") ] = PDict d
    ∧ getitem (obj [ ("fid", PStr "g2"); ("name", PStr "Beta") ]) "name"
      = Ok name
    ∧ getitem (obj [ ("fid", PStr "g2"); ("name", PStr "Beta") ]) "fid"
      = Ok fid
    ∧ hashkey fid = Ok key
    ∧ _parse_groups Examples.groups_two Examples.pta0
      = (Ok (),
         set_contest (Contest.set_group (PDict (dict_set key name d)))
                     Examples.pta0).
Proof.
  apply (parse_groups_keeps_last_record
           Examples.groups_two
           (PList [ obj [ ("fid", PStr "g1"); ("name", PStr "Alpha") ];
                    obj [ ("fid", PStr "g2"); ("name", PStr "Beta") ] ])
           [ obj [ ("fid", PStr "g1"); ("name", PStr "Alpha") ] ]
           (obj [ ("fid", PStr "g2"); ("name", PStr "Beta") ])
           Examples.pta0); [reflexivity..|].
  repeat constructor.
Defined.

Lemma parse_groups_cases (data : pyval) (self0 : PTA) :
  (∃ g, _parse_groups data self0
        = (Ok (), set_contest (Contest.set_group g) self0))
  ∨ ∃ e, _parse_groups data self0 = (Err e, self0).
Proof.
  unfold _parse_groups. unfold_binds.
  destruct (getitem data "groups") as [groups|]; [|eauto].
  destruct (py_iter groups) as [records|]; [|eauto].
  destruct (fold_result records _ _); eauto.
Qed.

(** [_parse_groups] either returns, having changed nothing but
    [contest.group], or raises and leaves the object as it was; on an empty
    list of groups the contest receives the empty dictionary. *)
Theorem parse_groups_all_or_nothing (data : pyval) (self0 : PTA) :
  ((∃ g, _parse_groups data self0
         = (Ok (), set_contest (Contest.set_group g) self0))
   ∨ ∃ e, _parse_groups data self0 = (Err e, self0))
  ∧ (getitem data "groups" ≫= py_iter = Ok [] →
     _parse_groups data self0
     = (Ok (), set_contest (Contest.set_group (PDict [])) self0)).
Proof.
  split; [apply parse_groups_cases|].
  unfold _parse_groups. unfold_binds.
  destruct (getitem data "groups") as [groups|]; [|done].
  destruct (py_iter groups) as [records|]; [|done].
  by intros [= ->].
Qed.

Lemma parse_groups_all_or_nothing_witness :
  _parse_groups Examples.groups_none Examples.pta0
  = (Ok (), set_contest (Contest.set_group (PDict [])) Examples.pta0).
Proof.
  apply (parse_groups_all_or_nothing Examples.groups_none Examples.pta0).
  reflexivity.
Defined.

(** ** [_parse_contest] *)

Section contest_more.
Variable get_timestamp : pyval → result Z.

(** On a snapshot without problems contest parsing returns: the times are
    set, labels, colours and the id mapping are emptied whatever they held,
    and [problem_quantity] is 0. *)
Theorem parse_contest_without_problems (data : pyval) (self0 : PTA)
    (t1 t2 : Z) :
  rank_times get_timestamp data = Ok (t1, t2) →
  rank_problem_items get_timestamp data = Ok [] →
  _parse_contest get_timestamp data self0
  = (Ok (),
     set_problem_ids []
       (set_contest
          (λ c, Contest.set_problem_quantity 0
                  (Contest.set_balloon_color []
                     (Contest.set_problem_id []
                        (Contest.set_end_time t2
                           (Contest.set_start_time t1 c)))))
          self0)).
Proof.
  unfold rank_times, rank_problem_items, _parse_contest. unfold_binds.
  intros Htimes Hitems.
  do 5 next_read Htimes. injection Htimes as -> ->.
  do 2 next_read Hitems. rewrite Hitems. reflexivity.
Qed.

(** Contest parsing returns on no other snapshot: when it returns, the
    problem map of the snapshot is empty. *)
Theorem parse_contest_returns_only_without_problems (data : pyval)
    (self0 self' : PTA) :
  _parse_contest get_timestamp data self0 = (Ok (), self') →
  rank_problem_items get_timestamp data = Ok [].
Proof.
  unfold rank_problem_items, _parse_contest. unfold_binds. intros H.
  do 7 next_read H.
  destruct (py_items _) as [[|[p_id p] rest]|]; [done| |done].
  rewrite for_fold_cons, parse_contest_problem_cases in H.
  destruct (getitem p "label"); [|done].
  by destruct (getitem p "balloonRgb").
Qed.

Lemma parse_contest_keeps (data : pyval) (self0 : PTA) :
  let self' := (_parse_contest get_timestamp data self0).2 in
  _contest_id self' = _contest_id self0
  ∧ _teams self' = _teams self0
  ∧ _runs self' = _runs self0
  ∧ _team_ids self' = _team_ids self0
  ∧ Contest.group (_contest self') = Contest.group (_contest self0).
Proof.
  unfold _parse_contest. unfold_binds.
  destruct (getitem data "competitionBasicInfo") as [cbi|]; [|done].
  destruct (getitem cbi "startAt") as [startAt|]; [|done].
  destruct (get_timestamp startAt) as [t1|]; [|done].
  destruct (getitem cbi "endAt") as [endAt|]; [|done].
  destruct (get_timestamp endAt) as [t2|]; [|done].
  destruct (getitem data "xcpcRankings") as [xcpcRankings|]; [|done].
  destruct (getitem xcpcRankings "problemInfoByProblemSetProblemId")
    as [problemInfo|]; [|done].
  destruct (py_items problemInfo) as [[|[p_id p] rest]|]; [done| |done].
  rewrite for_fold_cons, parse_contest_problem_cases.
  destruct (getitem p "label"); [|done].
  by destruct (getitem p "balloonRgb").
Qed.

(** Whatever the snapshot and however the call ends, contest parsing leaves
    the teams, the runs, the team ids, the contest id and the group mapping
    of the contest as they were. *)
Theorem parse_contest_frame (data : pyval) (self0 : PTA) :
  let self' := (_parse_contest get_timestamp data self0).2 in
  _contest_id self' = _contest_id self0
  ∧ _teams self' = _teams self0
  ∧ _runs self' = _runs self0
  ∧ _team_ids self' = _team_ids self0
  ∧ Contest.group (_contest self') = Contest.group (_contest self0).
Proof. apply parse_contest_keeps. Qed.
End contest_more.

Lemma parse_contest_without_problems_witness :
  _parse_contest Examples.timestamps Examples.rank_no_problems Examples.pta_p1
  = (Ok (),
     set_problem_ids []
       (set_contest
          (λ c, Contest.set_problem_quantity 0
                  (Contest.set_balloon_color []
                     (Contest.set_problem_id []
                        (Contest.set_end_time 1725166800
                           (Contest.set_start_time 1725148800 c)))))
          Examples.pta_p1)).
Proof.
  apply (parse_contest_without_problems
           Examples.timestamps Examples.rank_no_problems Examples.pta_p1);
    reflexivity.
Defined.

Lemma parse_contest_returns_only_without_problems_witness :
  rank_problem_items Examples.timestamps Examples.rank_no_problems = Ok [].
Proof.
  apply (parse_contest_returns_only_without_problems
           Examples.timestamps Examples.rank_no_problems Examples.pta0
           (_parse_contest Examples.timestamps Examples.rank_no_problems
                           Examples.pta0).2).
  vm_compute. reflexivity.
Defined.

(** ** [_parse_teams]: order and overwriting *)

Lemma dict_get_set {K V} `{EqDecision K} (k k' : K) (v : V)
    (d : list (K * V)) :
  dict_get k' (dict_set k v d)
  = if decide (k' = k) then Some v else dict_get k' d.
Proof.
  induction d as [|[k0 v0] d IH]; simpl.
  - by destruct (decide (k' = k)).
  - destruct (decide (k = k0)) as [->|Hk]; simpl.
    + by destruct (decide (k' = k0)).
    + rewrite IH. destruct (decide (k' = k0)) as [->|]; [|done].
      by rewrite decide_False by done.
Qed.

Section teams_more.
Variable py_repr : pyval → string.

Lemma parse_teams_fold (data : pyval) (self0 : PTA) (rs : list pyval) :
  ranking_records data = Ok rs →
  _parse_teams py_repr data self0
  = match fold_result rs ([], ∅) (_parse_teams_record py_repr) with
    | Ok (teams, team_ids) =>
        (Ok (), set_team_ids team_ids (set_teams teams self0))
    | Err e => (Err e, self0)
    end.
Proof.
  unfold ranking_records, _parse_teams. unfold_binds. intros H.
  do 2 next_read H. rewrite H.
  by destruct (fold_result rs _ _) as [[teams team_ids]|].
Qed.

(** A round of the loop in terms of [kept_team]. *)
Lemma parse_teams_record_kept (teams : Teams) (team_ids : gset string)
    (r : pyval) :
  ranking_record_ok r = true →
  ∃ acc',
    _parse_teams_record py_repr (teams, team_ids) r = Ok acc'
    ∧ acc'.1 = match kept_team py_repr r with
               | Some (id, team) => dict_set id team teams
               | None => teams
               end.
Proof.
  intros Hr.
  destruct (parse_teams_record_ok py_repr teams team_ids r Hr)
    as (id & excluded & team & _ & Hexcluded & Hteam & Hid & ->).
  unfold kept_team. rewrite Hexcluded, Hteam, Hid.
  eexists. split; [done|]. by destruct excluded.
Qed.

Lemma kept_teams_snoc (pre : list pyval) (r : pyval) :
  kept_teams py_repr (pre ++ [r])
  = kept_teams py_repr pre
      ++ match kept_team py_repr r with Some x => [x] | None => [] end.
Proof.
  unfold kept_teams. rewrite omap_app. simpl.
  by destruct (kept_team py_repr r).
Qed.

(** The team stored under an id is the one built from the last record of
    the snapshot that carries the id and is not excluded: a later record
    overwrites an earlier one. *)
Theorem parse_teams_last_record_wins (data : pyval) (self0 : PTA)
    (rs : list pyval) :
  rankings_ok data = true →
  ranking_records data = Ok rs →
  ∀ id,
    dict_get id (_teams (_parse_teams py_repr data self0).2)
    = dict_get id (reverse (kept_teams py_repr rs)).
Proof.
  intros Hok Hrs. rewrite (parse_teams_fold _ _ _ Hrs).
  unfold rankings_ok in Hok. rewrite Hrs in Hok.
  destruct (fold_result_invariant
              (λ pre (acc : Teams * gset string),
                 ∀ id, dict_get id acc.1
                       = dict_get id (reverse (kept_teams py_repr pre)))
              (λ r, ranking_record_ok r = true)
              (_parse_teams_record py_repr)) with (xs := rs) (pre := @nil pyval)
              (acc := (([], ∅) : Teams * gset string))
    as ([teams team_ids] & -> & Hinv).
  - intros pre r [teams team_ids] Hinv Hr.
    destruct (parse_teams_record_kept teams team_ids r Hr)
      as (acc' & -> & Hacc').
    exists acc'. split; [done|]. intros id.
    rewrite Hacc', kept_teams_snoc.
    destruct (kept_team py_repr r) as [[id' team]|].
    + rewrite reverse_app. simpl. rewrite dict_get_set. simpl in Hinv.
      by rewrite Hinv.
    + rewrite app_nil_r. apply Hinv.
  - done.
  - apply Forall_forall. intros r Hr.
    apply (proj1 (forallb_forall _ _) Hok). by apply list_elem_of_In.
  - exact Hinv.
Qed.

(** When the ids of the records that are not excluded are pairwise
    distinct, the team collection lists their teams in the order of the
    snapshot. *)
Theorem parse_teams_keeps_snapshot_order (data : pyval) (self0 : PTA)
    (rs : list pyval) :
  rankings_ok data = true →
  ranking_records data = Ok rs →
  NoDup (kept_teams py_repr rs).*1 →
  _teams (_parse_teams py_repr data self0).2 = kept_teams py_repr rs.
Proof.
  intros Hok Hrs. rewrite (parse_teams_fold _ _ _ Hrs).
  unfold rankings_ok in Hok. rewrite Hrs in Hok.
  destruct (fold_result_invariant
              (λ pre (acc : Teams * gset string),
                 NoDup (kept_teams py_repr pre).*1 →
                 acc.1 = kept_teams py_repr pre)
              (λ r, ranking_record_ok r = true)
              (_parse_teams_record py_repr)) with (xs := rs) (pre := @nil pyval)
              (acc := (([], ∅) : Teams * gset string))
    as ([teams team_ids] & -> & Hinv).
  - intros pre r [teams team_ids] Hinv Hr.
    destruct (parse_teams_record_kept teams team_ids r Hr)
      as (acc' & -> & Hacc').
    exists acc'. split; [done|].
    rewrite Hacc', kept_teams_snoc.
    destruct (kept_team py_repr r) as [[id' team]|].
    + rewrite fmap_app. intros [Hpre [Hnin _]]%NoDup_app.
      simpl in Hinv. rewrite (Hinv Hpre).
      destruct (dict_set_cases id' team (kept_teams py_repr pre))
        as [[Hin _]|[_ ->]]; [|done].
      exfalso. apply (Hnin id' Hin). simpl. left.
    + rewrite app_nil_r. apply Hinv.
  - done.
  - apply Forall_forall. intros r Hr.
    apply (proj1 (forallb_forall _ _) Hok). by apply list_elem_of_In.
  - exact Hinv.
Qed.
End teams_more.

Lemma parse_teams_last_record_wins_witness :
  dict_get "t1"
    (_teams (_parse_teams Examples.no_repr Examples.rank_duplicate_ids
                          Examples.pta0).2)
  = dict_get "t1"
      (reverse (kept_teams Examples.no_repr Examples.duplicate_rankings)).
Proof.
  apply (parse_teams_last_record_wins
           Examples.no_repr Examples.rank_duplicate_ids Examples.pta0
           Examples.duplicate_rankings); reflexivity.
Defined.

(** Team "t1" occurs twice: it keeps its first place and gets the name of
    the second record. *)
Example parse_teams_duplicate_ids :
  (λ it : string * Team.t, (it.1, Team.name it.2))
    <$> _teams (_parse_teams Examples.no_repr Examples.rank_duplicate_ids
                             Examples.pta0).2
  = [("t1", "Uno"); ("t2", "Two")].
Proof. vm_compute. reflexivity. Qed.

Lemma parse_teams_keeps_snapshot_order_witness :
  _teams (_parse_teams Examples.no_repr Examples.rank_three_teams
                       Examples.pta0).2
  = kept_teams Examples.no_repr Examples.three_rankings.
Proof.
  apply (parse_teams_keeps_snapshot_order
           Examples.no_repr Examples.rank_three_teams Examples.pta0
           Examples.three_rankings); [reflexivity..|].
  compute_done.
Defined.

(** ** [_parse_status] *)

(** The verdict is "accepted" for the string "ACCEPTED" only, "wrong answer"
    for the string "WRONG_ANSWER" only, and "unknown" for every other value,
    a string in another case or a value that is no string included: no
    status raises. *)
Theorem parse_status_exact (status : pyval) :
  (_parse_status status = RESULT_ACCEPTED ↔ status = PStr "ACCEPTED")
  ∧ (_parse_status status = RESULT_WRONG_ANSWER
     ↔ status = PStr "WRONG_ANSWER")
  ∧ (_parse_status status = RESULT_UNKNOWN
     ↔ status ≠ PStr "ACCEPTED" ∧ status ≠ PStr "WRONG_ANSWER").
Proof.
  unfold _parse_status, py_eq_str.
  destruct status as [| | |s| |];
    try (split_and!; split; (done || (by intros [] ) || eauto; fail)).
  destruct (String.eqb_spec s "ACCEPTED") as [->|Ha].
  - split_and!; split; try done. by intros [].
  - destruct (String.eqb_spec s "WRONG_ANSWER") as [->|Hw].
    + split_and!; split; try done. by intros [_ []].
    + split_and!; split; try done; try congruence.
      intros _. split; congruence.
Qed.

(** ** [_parse_team_runs]: what it reads and what it leaves *)

(** [_parse_team_runs] never changes the object; an error in reaching the
    records (no "submissions" key, a value that cannot be iterated) is
    raised as it is, and an empty list of records gives an empty list of
    submissions. *)
Theorem parse_team_runs_reads_only (get_timestamp : pyval → result Z)
    (data : pyval) (team_id : string) (self0 : PTA) :
  let out := _parse_team_runs get_timestamp data team_id self0 in
  out.2 = self0
  ∧ (∀ e, submission_records data = Err e → out.1 = Err e)
  ∧ (submission_records data = Ok [] → out.1 = Ok []).
Proof.
  unfold submission_records, _parse_team_runs, get. unfold_binds.
  destruct (getitem data "submissions") as [submissions|];
    [|by split_and!; [|intros ? [= ->]|]].
  destruct (py_iter submissions) as [subs|];
    [|by split_and!; [|intros ? [= ->]|]].
  split_and!; [done|done|]. by intros [= ->].
Qed.

Lemma parse_team_runs_reads_only_witness :
  (_parse_team_runs Examples.timestamps Examples.no_submissions_key "t1"
                    Examples.pta_p1).1
  = Err (KeyError (PStr "submissions"))
  ∧ (_parse_team_runs Examples.timestamps Examples.no_submissions "t1"
                      Examples.pta_p1).1
    = Ok [].
Proof.
  split.
  - apply (parse_team_runs_reads_only
             Examples.timestamps Examples.no_submissions_key "t1"
             Examples.pta_p1). reflexivity.
  - apply (parse_team_runs_reads_only
             Examples.timestamps Examples.no_submissions "t1"
             Examples.pta_p1). reflexivity.
Defined.

(** ** The transport *)

Section transport.
Variable remote : string → nat → response.

Lemma fetch_rank_by_uri_eq (path : string) (s : Env) :
  _fetch_rank_by_uri remote path s
  = (response_json (api_url (_contest_id (self s)) path)
       (remote (api_url (_contest_id (self s)) path)
               (requests_to (api_url (_contest_id (self s)) path) (trace s))),
     mkEnv (self s)
           (trace s ++ [Get (api_url (_contest_id (self s)) path)])).
Proof.
  unfold _fetch_rank_by_uri, api_url, get, emit, modify, liftR.
  unfold mbind, M_bind. simpl. by destruct (response_json _ _).
Qed.

(** A single request goes to
    [https://pintia.cn/api/competitions/<contest id>/<path>].  An answer
    with a status other than 200 raises [Exception] naming the URL and the
    status, whatever its body; an answer with status 200 gives what decoding
    its body gives.  The object is not touched. *)
Theorem fetch_checks_status (path : string) (s : Env) (status : Z)
    (json : result pyval) :
  let url := api_url (_contest_id (self s)) path in
  let s' := mkEnv (self s) (trace s ++ [Get url]) in
  remote url (requests_to url (trace s)) = HttpResponse status json →
  (status ≠ 200 →
   _fetch_rank_by_uri remote path s
   = (Err (Exception ("Failed to fetch " +:+ url +:+ ", status: "
                        +:+ pretty status)), s'))
  ∧ (status = 200 → _fetch_rank_by_uri remote path s = (json, s')).
Proof.
  intros url s' Hresp. rewrite fetch_rank_by_uri_eq. fold url.
  rewrite Hresp. unfold response_json. split.
  - intros Hstatus. by rewrite bool_decide_eq_true_2.
  - intros ->. done.
Qed.
End transport.

Lemma fetch_checks_status_witness :
  let url := team_submissions_url "c1" "t1" in
  _fetch_rank_by_uri Examples.flaky_remote
    "xcpc-rankings-team-submissions?team_fid=t1" (mkEnv Examples.pta0 [])
  = (Err (Exception ("Failed to fetch " +:+ url +:+ ", status: 503")),
     mkEnv Examples.pta0 [Get url])
  ∧ _fetch_rank_by_uri Examples.flaky_remote
      "xcpc-rankings-team-submissions?team_fid=t1"
      (mkEnv Examples.pta0 [Get url])
    = (Ok Examples.t1_payload, mkEnv Examples.pta0 [Get url; Get url]).
Proof.
  split.
  - apply (fetch_checks_status
             Examples.flaky_remote
             "xcpc-rankings-team-submissions?team_fid=t1"
             (mkEnv Examples.pta0 []) 503 (Ok PNone) eq_refl).
    discriminate.
  - apply (fetch_checks_status
             Examples.flaky_remote
             "xcpc-rankings-team-submissions?team_fid=t1"
             (mkEnv Examples.pta0 [Get (team_submissions_url "c1" "t1")])
             200 (Ok Examples.t1_payload) eq_refl).
    reflexivity.
Defined.

(** ** [_fetch_and_parse_team_runs] and [_process_team_runs_batch] *)

Lemma append_inj_r (p a b : string) : p +:+ a = p +:+ b → a = b.
Proof. induction p as [|c p IH]; simpl; [done|]. intros [= H]. auto. Qed.

Lemma team_submissions_url_inj (contest_id a b : string) :
  team_submissions_url contest_id a = team_submissions_url contest_id b →
  a = b.
Proof.
  unfold team_submissions_url, api_url. intros H.
  do 4 apply append_inj_r in H. exact H.
Qed.

Lemma requests_to_app (url : string) (tr1 tr2 : list event) :
  requests_to url (tr1 ++ tr2)
  = (requests_to url tr1 + requests_to url tr2)%nat.
Proof. unfold requests_to. by rewrite filter_app, length_app. Qed.

Lemma requests_to_other_teams (contest_id team_id : string)
    (teams : list Team.t) :
  team_id ∉ Team.team_id <$> teams →
  requests_to (team_submissions_url contest_id team_id)
              ((λ team, Get (team_submissions_url contest_id
                                                  (Team.team_id team)))
                 <$> teams)
  = 0%nat.
Proof.
  unfold requests_to. induction teams as [|team teams IH]; [done|].
  rewrite !fmap_cons, not_elem_of_cons. intros [Hne Hnotin].
  rewrite filter_cons_False; [by apply IH|].
  intros Heq.
  apply (f_equal (λ e, match e with Get url => url | _ => EmptyString end))
    in Heq.
  cbv beta iota in Heq. apply team_submissions_url_inj in Heq. congruence.
Qed.

Lemma first_attempt_requests (get_timestamp : pyval → result Z)
    (remote : string → nat → response) (self0 : PTA) (tr tr' : list event)
    (team_id : string) :
  requests_to (team_submissions_url (_contest_id self0) team_id) tr
  = requests_to (team_submissions_url (_contest_id self0) team_id) tr' →
  first_attempt get_timestamp remote self0 tr team_id
  = first_attempt get_timestamp remote self0 tr' team_id.
Proof. unfold first_attempt. by intros ->. Qed.

Section attempts.
Variable get_timestamp : pyval → result Z.
Variable remote : string → nat → response.

(** For every team and state the call sends exactly one request and logs no
    retry warning, leaves the object as it was, ends as the first attempt
    ends, and never returns [None]. *)
Theorem fetch_and_parse_never_retries (team_id : string) (s : Env) :
  let out := _fetch_and_parse_team_runs get_timestamp remote team_id s in
  out.1 = first_attempt get_timestamp remote (self s) (trace s) team_id
  ∧ out.1 ≠ Ok None
  ∧ self out.2 = self s
  ∧ trace out.2
    = trace s ++ [Get (team_submissions_url (_contest_id (self s)) team_id)].
Proof.
  rewrite fetch_and_parse_first_attempt. simpl. split_and!; try done.
  intros H. by apply first_attempt_some in H as [runs ?].
Qed.

Lemma batch_result_at (batch : list Team.t) (s s' : Env)
    (rs : list (option Submissions)) (k : nat) (team : Team.t) :
  _process_team_runs_batch get_timestamp remote batch s = (Ok rs, s') →
  batch !! k = Some team →
  ∃ runs,
    rs !! k = Some (Some runs)
    ∧ first_attempt get_timestamp remote (self s)
        (trace s
           ++ ((λ t, Get (team_submissions_url (_contest_id (self s))
                                               (Team.team_id t)))
                 <$> take k batch))
        (Team.team_id team)
      = Ok (Some runs).
Proof.
  unfold _process_team_runs_batch. revert s s' rs k.
  induction batch as [|t batch IH]; intros s s' rs k H Hk; [done|].
  rewrite fmap_cons in H. cbn [gather] in H.
  apply M_bind_ok_inv in H as (r & s1 & Hteam & H).
  apply M_bind_ok_inv in H as (rest & s2 & Hrest & H).
  injection H as <- <-.
  rewrite fetch_and_parse_first_attempt in Hteam.
  injection Hteam as Hr <-.
  destruct k as [|k]; simpl in Hk.
  - injection Hk as <-.
    destruct (first_attempt_some _ _ _ _ _ _ Hr) as [runs ->].
    exists runs. split; [done|]. cbn [take]. rewrite fmap_nil, app_nil_r.
    exact Hr.
  - eapply IH in Hrest as (runs & Hl & Hfa); [|exact Hk].
    exists runs. split; [done|]. cbn [self trace] in Hfa.
    rewrite <- app_assoc in Hfa. exact Hfa.
Qed.

(** A batch that returns gives one result per team of the batch and leaves
    the object as it was.  The k-th result is a list, never [None]: the
    outcome of the first attempt for the k-th team of the batch on this
    object, after the requests made before the call and those for the teams
    before it in the batch.  When the batch names no team twice, it is the
    outcome of the first attempt after the requests made before the call
    alone. *)
Theorem batch_results_follow_teams (batch : list Team.t) (s s' : Env)
    (rs : list (option Submissions)) :
  _process_team_runs_batch get_timestamp remote batch s = (Ok rs, s') →
  length rs = length batch
  ∧ self s' = self s
  ∧ (∀ k team, batch !! k = Some team →
       ∃ runs,
         rs !! k = Some (Some runs)
         ∧ first_attempt get_timestamp remote (self s)
             (trace s
                ++ ((λ t, Get (team_submissions_url (_contest_id (self s))
                                                    (Team.team_id t)))
                      <$> take k batch))
             (Team.team_id team)
           = Ok (Some runs))
  ∧ (NoDup (Team.team_id <$> batch) →
     ∀ k team, batch !! k = Some team →
       ∃ runs,
         rs !! k = Some (Some runs)
         ∧ first_attempt get_timestamp remote (self s) (trace s)
                         (Team.team_id team)
           = Ok (Some runs)).
Proof.
  intros H.
  pose proof (process_batch_ok _ _ _ _ _ _ H)
    as (Hself & _ & per_team & Hrs & Hall).
  split_and!; [|done|by intros k team; apply (batch_result_at _ _ s')|].
  - rewrite Hrs, length_fmap. symmetry. by eapply Forall2_length.
  - intros Hnodup k team Hk.
    destruct (batch_result_at _ _ _ _ _ _ H Hk) as (runs & Hl & Hfa).
    exists runs. split; [done|]. rewrite <- Hfa.
    apply first_attempt_requests.
    rewrite requests_to_app, requests_to_other_teams; [lia|].
    rewrite <- (take_drop_middle _ _ _ Hk), fmap_app, fmap_cons in Hnodup.
    apply NoDup_app in Hnodup as (_ & Hnotin & _).
    intros Hin. apply (Hnotin _ Hin). left.
Qed.
End attempts.

Lemma batch_results_follow_teams_witness :
  let s := Examples.abc_env in
  let batch := dict_values (_teams (self s)) in
  let out := _process_team_runs_batch Examples.timestamps Examples.abc_remote
                                      batch s in
  ∃ rs,
    out.1 = Ok rs
    ∧ length rs = length batch
    ∧ self out.2 = self s
    ∧ ∀ k team, batch !! k = Some team →
        ∃ runs,
          rs !! k = Some (Some runs)
          ∧ first_attempt Examples.timestamps Examples.abc_remote (self s)
                          (trace s) (Team.team_id team)
            = Ok (Some runs).
Proof.
  intros s batch out.
  destruct out as [[rs|e] s'] eqn:Hout; [|vm_compute in Hout; discriminate].
  exists rs.
  destruct (batch_results_follow_teams
              Examples.timestamps Examples.abc_remote batch s s' rs Hout)
    as (Hlen & Hself & _ & Hteams).
  split_and!; [done..|]. apply Hteams.
  compute_done.
Defined.

(** ** The sweep: what it leaves and what it sends *)

Section sweep_more.
Variable get_timestamp : pyval → result Z.
Variable remote : string → nat → response.

Lemma process_batch_self (batch : list Team.t) (s : Env) :
  self (_process_team_runs_batch get_timestamp remote batch s).2 = self s.
Proof.
  unfold _process_team_runs_batch. revert s.
  induction batch as [|team batch IH]; intros s; [done|].
  rewrite fmap_cons. cbn [gather]. unfold mbind at 1. unfold M_bind at 1.
  rewrite fetch_and_parse_first_attempt.
  destruct (first_attempt _ _ _ _ _) as [r|]; [|done].
  unfold mbind at 1. unfold M_bind at 1.
  match goal with
  | |- context [gather _ ?s1] =>
      specialize (IH s1); destruct (gather _ s1) as [[rs|] s2]
  end; exact IH.
Qed.

Lemma parse_batch_self (teams : list Team.t) (all : Submissions) (i : nat)
    (s : Env) :
  self (_parse_batch get_timestamp remote 100 teams all i s).2 = self s.
Proof.
  unfold _parse_batch. unfold mbind at 1. unfold M_bind at 1.
  assert (∃ s1, (if bool_decide (0 < i)%nat then emit (Sleep 1)
                 else mret ()) s = (Ok (), s1) ∧ self s1 = self s)
    as (s1 & -> & <-).
  { case_bool_decide; by eexists. }
  unfold mbind at 1. unfold M_bind at 1.
  pose proof (process_batch_self (islice teams i (i + 100)) s1) as Hself.
  destruct (_process_team_runs_batch _ _ _ s1) as [[rs|] s2]; [|done].
  unfold mbind at 1. unfold M_bind at 1. unfold liftR.
  by destruct (fold_result rs all extend).
Qed.

Lemma batches_self (teams : list Team.t) (ixs : list nat) (all : Submissions)
    (s : Env) :
  self (for_fold ixs all (_parse_batch get_timestamp remote 100 teams) s).2
  = self s.
Proof.
  revert all s. induction ixs as [|i ixs IH]; intros all s; [done|].
  rewrite for_fold_cons.
  pose proof (parse_batch_self teams all i s) as Hself.
  destruct (_parse_batch _ _ _ _ _ _ s) as [[all1|] s1]; [|done].
  by rewrite IH.
Qed.

(** The sweep is all or nothing: when it raises, whichever team fails and
    however many batches went through, the object is as before, [_runs]
    included; when it returns, [_runs] alone has changed. *)
Theorem sweep_all_or_nothing (s : Env) :
  let out := _parse_fetch_runs get_timestamp remote s in
  match out.1 with
  | Ok _ => ∃ runs, self out.2 = set_runs runs (self s)
  | Err _ => self out.2 = self s
  end.
Proof.
  assert (_parse_fetch_runs get_timestamp remote s
          = match for_fold
                    (range 0 (length (dict_values (_teams (self s)))) 100) []
                    (_parse_batch get_timestamp remote 100
                                  (dict_values (_teams (self s)))) s with
            | (Ok all, s1) =>
                (Ok (),
                 mkEnv (set_runs (list_sort_by Submission.timestamp all)
                                 (self s1)) (trace s1))
            | (Err e, s1) => (Err e, s1)
            end) as ->.
  { unfold _parse_fetch_runs. unfold mbind at 1. unfold M_bind at 1.
    unfold get at 1. unfold mbind at 1. unfold M_bind at 1.
    by destruct (for_fold _ _ _ s) as [[all|] s1]. }
  pose proof (batches_self (dict_values (_teams (self s)))
                (range 0 (length (dict_values (_teams (self s)))) 100) [] s)
    as Hself.
  destruct (for_fold _ _ _ s) as [[all|] s1]; simpl in *; [|done].
  eexists. by rewrite Hself.
Qed.

(** Without teams the sweep sends nothing, does not pause, and installs the
    empty list in place of whatever [_runs] held. *)
Theorem sweep_without_teams (s : Env) :
  _teams (self s) = [] →
  _parse_fetch_runs get_timestamp remote s
  = (Ok (), mkEnv (set_runs [] (self s)) (trace s)).
Proof.
  intros Hteams. unfold _parse_fetch_runs.
  unfold mbind at 1. unfold M_bind at 1. unfold get at 1.
  by rewrite Hteams.
Qed.

Lemma filter_concat_fmap {A B} (P : B → Prop) `{∀ x, Decision (P x)}
    (f : A → list B) (l : list A) :
  filter P (concat (f <$> l)) = concat ((λ x, filter P (f x)) <$> l).
Proof.
  induction l as [|x l IH]; [done|].
  rewrite !fmap_cons. cbn [concat]. by rewrite filter_app, IH.
Qed.

Lemma concat_fmap_each {A B C} (g : B → C) (f : A → list B) (l : list A) :
  concat ((λ x, g <$> f x) <$> l) = g <$> concat (f <$> l).
Proof.
  induction l as [|x l IH]; [done|].
  rewrite !fmap_cons. cbn [concat]. by rewrite fmap_app, IH.
Qed.

Lemma batch_trace_requests (contest_id : string) (teams : list Team.t)
    (k : nat) :
  filter (λ e, is_request e = true) (batch_trace contest_id teams k)
  = (λ team, Get (team_submissions_url contest_id (Team.team_id team)))
      <$> batch_of 100 teams k.
Proof.
  unfold batch_trace. rewrite !filter_app.
  assert (filter (λ e, is_request e = true)
                 (if bool_decide (0 < k)%nat then [Sleep 1] else []) = [])
    as -> by (by case_bool_decide).
  rewrite filter_cons, decide_False by done. simpl. rewrite app_nil_r.
  induction (batch_of 100 teams k) as [|team l IH]; [done|].
  rewrite fmap_cons, filter_cons, decide_True by done. by rewrite IH.
Qed.

Lemma batch_trace_pauses (contest_id : string) (teams : list Team.t)
    (k : nat) :
  length (filter (λ e, e = Sleep 1) (batch_trace contest_id teams k))
  = if bool_decide (0 < k)%nat then 1%nat else 0%nat.
Proof.
  unfold batch_trace. rewrite !filter_app, !length_app.
  assert (filter (λ e, e = Sleep 1)
            ((λ team, Get (team_submissions_url contest_id
                                                (Team.team_id team)))
               <$> batch_of 100 teams k) = []) as ->.
  { induction (batch_of 100 teams k) as [|team l IH]; [done|].
    by rewrite fmap_cons, filter_cons, decide_False. }
  rewrite filter_cons, decide_False by done.
  case_bool_decide; [|done].
  by rewrite filter_cons, decide_True.
Qed.

Lemma pauses_of_batches (contest_id : string) (teams : list Team.t)
    (a m : nat) :
  length (filter (λ e, e = Sleep 1)
            (concat (batch_trace contest_id teams <$> seq a m)))
  = if bool_decide (0 < a)%nat then m else pred m.
Proof.
  revert a. induction m as [|m IH]; intros a; simpl.
  - by case_bool_decide.
  - rewrite filter_app, length_app, batch_trace_pauses, IH.
    rewrite (bool_decide_eq_true_2 (0 < S a)%nat) by lia.
    case_bool_decide; [done|]. destruct m; done.
Qed.

(** A sweep that returns has sent one request per team, in the order of the
    team list, and has paused one time less than there are batches. *)
Theorem sweep_requests_and_pauses (s s' : Env) :
  _parse_fetch_runs get_timestamp remote s = (Ok (), s') →
  let teams := dict_values (_teams (self s)) in
  ∃ added,
    trace s' = trace s ++ added
    ∧ filter (λ e, is_request e = true) added
      = (λ team, Get (team_submissions_url (_contest_id (self s))
                                           (Team.team_id team))) <$> teams
    ∧ length (filter (λ e, e = Sleep 1) added)
      = pred (ceil_div (length teams) 100).
Proof.
  intros H teams. apply parse_fetch_runs_ok in H as (Htrace & _).
  eexists. split; [exact Htrace|]. fold teams. unfold sweep_trace. split.
  - rewrite filter_concat_fmap.
    rewrite (list_fmap_ext _
               (λ k, (λ team, Get (team_submissions_url
                                     (_contest_id (self s))
                                     (Team.team_id team)))
                       <$> batch_of 100 teams k))
      by (intros; apply batch_trace_requests).
    rewrite concat_fmap_each. by rewrite concat_batches by lia.
  - by rewrite pauses_of_batches.
Qed.
End sweep_more.

Lemma sweep_without_teams_witness :
  _parse_fetch_runs Examples.timestamps Examples.abc_remote
    (mkEnv (set_runs [Submission.mk "x" RESULT_UNKNOWN 0 0 PNone]
                     Examples.pta_p1) [])
  = (Ok (),
     mkEnv (set_runs []
              (set_runs [Submission.mk "x" RESULT_UNKNOWN 0 0 PNone]
                        Examples.pta_p1)) []).
Proof.
  apply (sweep_without_teams
           Examples.timestamps Examples.abc_remote
           (mkEnv (set_runs [Submission.mk "x" RESULT_UNKNOWN 0 0 PNone]
                            Examples.pta_p1) [])).
  reflexivity.
Defined.

Lemma sweep_requests_and_pauses_witness :
  let s := Examples.abc_env in
  let s' := (_parse_fetch_runs Examples.timestamps Examples.abc_remote s).2 in
  let teams := dict_values (_teams (self s)) in
  ∃ added,
    trace s' = trace s ++ added
    ∧ filter (λ e, is_request e = true) added
      = (λ team, Get (team_submissions_url (_contest_id (self s))
                                           (Team.team_id team))) <$> teams
    ∧ length (filter (λ e, e = Sleep 1) added)
      = pred (ceil_div (length teams) 100).
Proof.
  apply (sweep_requests_and_pauses
           Examples.timestamps Examples.abc_remote Examples.abc_env).
  vm_compute. reflexivity.
Defined.

(** Team b is refused after team a was fetched: the sweep raises and
    [_runs] holds what it held. *)
Example sweep_fails_at_second_team :
  let out := _parse_fetch_runs Examples.timestamps Examples.ab_failing_remote
                               Examples.ab_env in
  is_ok out.1 = false
  ∧ self out.2 = self Examples.ab_env
  ∧ length (filter (λ e, is_request e = true) (trace out.2)) = 2%nat.
Proof. vm_compute. by split_and!. Qed.

(** ** The pipeline [_parse] *)

Lemma lift_self_trace {A} (m : M PTA A) (s : Env) :
  trace (lift_self m s).2 = trace s.
Proof. unfold lift_self. by destruct (m (self s)). Qed.

Section pipeline.
Variable py_repr : pyval → string.
Variable get_timestamp : pyval → result Z.
Variable remote : string → nat → response.

(** With [fetch_runs] false the pipeline asks for the groups and then for
    the rank snapshot and for nothing else.  When the request for the groups
    fails, or its answer does not parse as groups, the pipeline raises that
    error after this one request, the object untouched; when the groups are
    fetched and parsed the requests are exactly the two, however the run
    ends; and a run that returns has sent both. *)
Theorem parse_without_runs_sends_two_requests (s : Env) :
  let groups_url := api_url (_contest_id (self s)) "groups" in
  let rank_url := api_url (_contest_id (self s)) "xcpc-rankings" in
  let answer :=
    response_json groups_url
      (remote groups_url (requests_to groups_url (trace s))) in
  let stopped := mkEnv (self s) (trace s ++ [Get groups_url]) in
  let out := _parse py_repr get_timestamp remote false s in
  (∀ e, answer = Err e → out = (Err e, stopped))
  ∧ (∀ groups e,
       answer = Ok groups →
       (_parse_groups groups (self s)).1 = Err e →
       out = (Err e, stopped))
  ∧ (∀ groups,
       answer = Ok groups →
       (_parse_groups groups (self s)).1 = Ok () →
       trace out.2 = trace s ++ [Get groups_url; Get rank_url])
  ∧ (is_ok out.1 = true →
     trace out.2 = trace s ++ [Get groups_url; Get rank_url]).
Proof.
  intros groups_url rank_url answer stopped out.
  assert (out
          = (groups ← (λ s0 : Env, (answer, stopped));
             lift_self (_parse_groups groups);;
             rank ← _fetch_rank remote;
             lift_self (_parse_contest get_timestamp rank);;
             lift_self (_parse_teams py_repr rank);;
             lift_self (_make_fake_runs py_repr rank)) s) as Hout.
  { unfold out, _parse, _fetch_groups.
    unfold mbind at 1. unfold M_bind at 1. rewrite fetch_rank_by_uri_eq.
    reflexivity. }
  assert (∀ e, answer = Err e → out = (Err e, stopped)) as Hone.
  { intros e He. rewrite Hout. unfold mbind at 1. unfold M_bind at 1.
    by rewrite He. }
  assert (∀ groups e,
            answer = Ok groups →
            (_parse_groups groups (self s)).1 = Err e →
            out = (Err e, stopped)) as Hbad.
  { intros groups e Hg Hp. rewrite Hout.
    unfold mbind at 1. unfold M_bind at 1. rewrite Hg.
    unfold mbind at 1. unfold M_bind at 1.
    unfold lift_self at 1. cbn [self trace stopped].
    destruct (parse_groups_cases groups (self s)) as [[g Heq]|[e' Heq]];
      rewrite Heq in Hp |- *; [done|].
    by injection Hp as ->. }
  assert (∀ groups,
            answer = Ok groups →
            (_parse_groups groups (self s)).1 = Ok () →
            trace out.2 = trace s ++ [Get groups_url; Get rank_url]) as Htwo.
  { intros groups Hg Hp. rewrite Hout.
    unfold mbind at 1. unfold M_bind at 1. rewrite Hg.
    unfold mbind at 1. unfold M_bind at 1.
    unfold lift_self at 1. cbn [self trace stopped].
    destruct (parse_groups_cases groups (self s)) as [[g Heq]|[e' Heq]];
      rewrite Heq in Hp |- *; [|done].
    unfold mbind at 1. unfold M_bind at 1.
    unfold _fetch_rank. rewrite fetch_rank_by_uri_eq. cbn [self trace].
    change (_contest_id (set_contest (Contest.set_group g) (self s)))
      with (_contest_id (self s)). fold rank_url.
    rewrite <- app_assoc. cbn [app].
    destruct (response_json rank_url _) as [rank|]; [|done].
    unfold mbind at 1. unfold M_bind at 1.
    match goal with
    | |- context [lift_self (_parse_contest ?t ?d) ?s0] =>
        pose proof (lift_self_trace (_parse_contest t d) s0) as Ht1;
        destruct (lift_self (_parse_contest t d) s0) as [[[]|] s2]
    end; cbn [snd trace] in Ht1; [|done].
    unfold mbind at 1. unfold M_bind at 1.
    match goal with
    | |- context [lift_self (_parse_teams ?t ?d) ?s0] =>
        pose proof (lift_self_trace (_parse_teams t d) s0) as Ht2;
        destruct (lift_self (_parse_teams t d) s0) as [[[]|] s3]
    end; cbn [snd] in Ht2; [|by rewrite <- Ht1].
    pose proof (lift_self_trace (_make_fake_runs py_repr rank) s3) as Ht3.
    destruct (lift_self (_make_fake_runs py_repr rank) s3) as [r3 s4].
    cbn [snd] in Ht3 |- *. by rewrite Ht3, Ht2, Ht1. }
  split_and!; [done..|].
  clear Hout. clearbody out answer. intros Hok.
  destruct answer as [groups|e].
  - destruct (_parse_groups groups (self s)).1 as [[]|e] eqn:Hp.
    + by apply (Htwo groups).
    + rewrite (Hbad groups e eq_refl Hp) in Hok. done.
  - rewrite (Hone e eq_refl) in Hok. done.
Qed.
End pipeline.

Lemma parse_without_runs_sends_two_requests_witness :
  let s := mkEnv Examples.pta0 [] in
  let groups_url := api_url "c1" "groups" in
  let rank_url := api_url "c1" "xcpc-rankings" in
  _parse Examples.no_repr Examples.timestamps Examples.dead_remote false s
  = (Err (ClientError "Cannot connect to host"),
     mkEnv Examples.pta0 [Get groups_url])
  ∧ _parse Examples.no_repr Examples.timestamps Examples.bad_groups_remote
           false s
    = (Err (KeyError (PStr "groups")), mkEnv Examples.pta0 [Get groups_url])
  ∧ trace (_parse Examples.no_repr Examples.timestamps
                  Examples.preview_remote false s).2
    = [Get groups_url; Get rank_url].
Proof.
  intros s groups_url rank_url. split_and!.
  - pose proof (parse_without_runs_sends_two_requests
                  Examples.no_repr Examples.timestamps Examples.dead_remote s)
      as H.
    cbv zeta in H. destruct H as (H & _). apply H. reflexivity.
  - pose proof (parse_without_runs_sends_two_requests
                  Examples.no_repr Examples.timestamps
                  Examples.bad_groups_remote s) as H.
    cbv zeta in H. destruct H as (_ & H & _).
    apply (H (obj [])); reflexivity.
  - pose proof (parse_without_runs_sends_two_requests
                  Examples.no_repr Examples.timestamps
                  Examples.preview_remote s) as H.
    cbv zeta in H. destruct H as (_ & _ & H & _).
    apply (H Examples.groups_none); reflexivity.
Defined.

Section pipeline_failure.
Variable py_repr : pyval → string.
Variable get_timestamp : pyval → result Z.
Variable remote : string → nat → response.

(** When the groups are fetched and parsed and the snapshot that is served
    has a first problem with a label and a colour, the pipeline raises
    [AttributeError] after its two requests, for either value of
    [fetch_runs]: no team is parsed, no submissions are asked for, and teams,
    team ids and runs are as before. *)
Theorem parse_raises_on_first_problem (fetch_runs : bool) (s : Env)
    (groups rank : pyval) (p_id : pykey) (p : pyval)
    (rest : list (pykey * pyval)) (label rgb : pyval) :
  let groups_url := api_url (_contest_id (self s)) "groups" in
  let rank_url := api_url (_contest_id (self s)) "xcpc-rankings" in
  response_json groups_url
    (remote groups_url (requests_to groups_url (trace s))) = Ok groups →
  (_parse_groups groups (self s)).1 = Ok () →
  response_json rank_url
    (remote rank_url (requests_to rank_url (trace s ++ [Get groups_url])))
  = Ok rank →
  rank_problem_items get_timestamp rank = Ok ((p_id, p) :: rest) →
  getitem p "label" = Ok label →
  getitem p "balloonRgb" = Ok rgb →
  ∃ s',
    _parse py_repr get_timestamp remote fetch_runs s
    = (Err (AttributeError
              "'Contest' object has no attribute 'append_balloon_color'"),
       s')
    ∧ trace s' = trace s ++ [Get groups_url; Get rank_url]
    ∧ _teams (self s') = _teams (self s)
    ∧ _team_ids (self s') = _team_ids (self s)
    ∧ _runs (self s') = _runs (self s).
Proof.
  intros groups_url rank_url Hgroups Hparse Hrank Hitems Hlabel Hrgb.
  unfold _parse. unfold mbind at 1. unfold M_bind at 1.
  unfold _fetch_groups. rewrite fetch_rank_by_uri_eq. fold groups_url.
  rewrite Hgroups.
  unfold mbind at 1. unfold M_bind at 1.
  unfold lift_self at 1. cbn [self trace].
  destruct (parse_groups_cases groups (self s)) as [[g Hg]|[e He]];
    [|by rewrite He in Hparse].
  rewrite Hg.
  unfold mbind at 1. unfold M_bind at 1.
  unfold _fetch_rank. rewrite fetch_rank_by_uri_eq. cbn [self trace].
  change (_contest_id (set_contest (Contest.set_group g) (self s)))
    with (_contest_id (self s)). fold rank_url.
  rewrite Hrank.
  unfold mbind at 1. unfold M_bind at 1.
  unfold lift_self at 1. cbn [self trace].
  pose proof (parse_contest_keeps get_timestamp rank
                (set_contest (Contest.set_group g) (self s)))
    as (_ & Hteams & Hruns & Hids & _).
  destruct (parse_contest_raises get_timestamp rank
              (set_contest (Contest.set_group g) (self s))
              p_id p rest label rgb Hitems Hlabel Hrgb)
    as (self' & Hraise & _).
  rewrite Hraise in *. cbn [snd] in *.
  eexists. split; [reflexivity|]. cbn [self trace].
  rewrite <- app_assoc. by split_and!.
Qed.
End pipeline_failure.

Lemma parse_raises_on_first_problem_witness :
  let s := mkEnv Examples.pta0 [] in
  ∃ s',
    _parse Examples.no_repr Examples.timestamps Examples.problem_remote true s
    = (Err (AttributeError
              "'Contest' object has no attribute 'append_balloon_color'"),
       s')
    ∧ trace s' = trace s ++ [Get (api_url "c1" "groups");
                             Get (api_url "c1" "xcpc-rankings")]
    ∧ _teams (self s') = _teams (self s)
    ∧ _team_ids (self s') = _team_ids (self s)
    ∧ _runs (self s') = _runs (self s).
Proof.
  apply (parse_raises_on_first_problem
           Examples.no_repr Examples.timestamps Examples.problem_remote true
           (mkEnv Examples.pta0 []) Examples.groups_two
           Examples.rank_one_problem (KStr "p1")
           (Examples.problem "A" "#ff0000") [] (PStr "A") (PStr "#ff0000"));
    reflexivity.
Defined.

(** ** The pipeline stores no submission *)

Section no_submission.
Variable py_repr : pyval → string.
Variable get_timestamp : pyval → result Z.
Variable remote : string → nat → response.

Lemma parse_contest_ok_problem_ids (data : pyval) (self0 self' : PTA) :
  _parse_contest get_timestamp data self0 = (Ok (), self') →
  _problem_ids self' = [].
Proof.
  unfold _parse_contest. unfold_binds. intros H.
  do 7 next_read H.
  destruct (py_items _) as [[|[p_id p] rest]|]; [|exfalso|done].
  - by injection H as <-.
  - rewrite for_fold_cons, parse_contest_problem_cases in H.
    destruct (getitem p "label"); [|done].
    by destruct (getitem p "balloonRgb").
Qed.

Lemma parse_teams_problem_ids (data : pyval) (self0 : PTA) :
  _problem_ids (_parse_teams py_repr data self0).2 = _problem_ids self0.
Proof.
  unfold _parse_teams. unfold_binds.
  destruct (getitem data "xcpcRankings") as [xcpcRankings|]; [|done].
  destruct (getitem xcpcRankings "rankings") as [rankings|]; [|done].
  destruct (py_iter rankings) as [rs|]; [|done].
  by destruct (fold_result rs _ _) as [[teams team_ids]|].
Qed.

(** With an empty id mapping no submission record parses. *)
Lemma first_attempt_empty_mapping (self0 : PTA) (tr : list event)
    (team_id : string) (runs : Submissions) :
  _problem_ids self0 = [] →
  first_attempt get_timestamp remote self0 tr team_id = Ok (Some runs) →
  runs = [].
Proof.
  intros Hids. unfold first_attempt. unfold_binds. intros H.
  next_read H. next_read H. injection H as ->.
  unfold _parse_team_runs, get in Hread0. unfold_binds. simpl in Hread0.
  destruct (getitem a "submissions") as [submissions|]; [|done].
  destruct (py_iter submissions) as [subs|]; [|done]. simpl in Hread0.
  apply parse_team_runs_fold_inv in Hread0 as (new & -> & Hnew).
  destruct Hnew as [|sub run subs new (_ & _ & Hindex & _) _]; [done|].
  exfalso. rewrite Hids in Hindex.
  unfold submission_problem_index, dict_subscript in Hindex. unfold_binds.
  destruct (getitem sub "problemSetProblemId") as [pid|]; [|done].
  by destruct (hashkey pid).
Qed.

Lemma process_batch_empty_mapping (batch : list Team.t) (s s' : Env)
    (rs : list (option Submissions)) :
  _problem_ids (self s) = [] →
  _process_team_runs_batch get_timestamp remote batch s = (Ok rs, s') →
  Forall (λ r, r = Some []) rs.
Proof.
  unfold _process_team_runs_batch. revert s s' rs.
  induction batch as [|team batch IH]; intros s s' rs Hids H.
  - injection H as <- <-. constructor.
  - rewrite fmap_cons in H. cbn [gather] in H.
    apply M_bind_ok_inv in H as (r & s1 & Hteam & H).
    apply M_bind_ok_inv in H as (rest & s2 & Hrest & H).
    injection H as <- <-.
    rewrite fetch_and_parse_first_attempt in Hteam.
    injection Hteam as Hr <-.
    constructor.
    + destruct (first_attempt_some _ _ _ _ _ _ Hr) as (runs & ->).
      by rewrite (first_attempt_empty_mapping _ _ _ _ Hids Hr).
    + eapply IH; [|exact Hrest]. exact Hids.
Qed.

Lemma fold_extend_nothing {A} (rs : list (option (list A))) (all : list A) :
  Forall (λ r, r = Some []) rs → fold_result rs all extend = Ok all.
Proof.
  induction 1 as [|r rs -> _ IH]; [done|].
  rewrite fold_result_cons. simpl. by rewrite app_nil_r.
Qed.

Lemma batches_empty_mapping (teams : list Team.t) (ixs : list nat)
    (all all' : Submissions) (s s' : Env) :
  _problem_ids (self s) = [] →
  for_fold ixs all (_parse_batch get_timestamp remote 100 teams) s
  = (Ok all', s') →
  all' = all.
Proof.
  revert all s. induction ixs as [|i ixs IH]; intros all s Hids H.
  - by injection H as <- <-.
  - rewrite for_fold_cons in H.
    pose proof (parse_batch_self get_timestamp remote teams all i s) as Hself.
    destruct (_parse_batch _ _ _ _ _ _ s) as [[all1|] s1] eqn:Hbatch; [|done].
    cbn [snd] in Hself.
    apply IH in H as ->; [|by rewrite Hself].
    unfold _parse_batch in Hbatch.
    apply M_bind_ok_inv in Hbatch as ([] & s2 & Hpause & Hbatch).
    apply M_bind_ok_inv in Hbatch as (rs & s3 & Hrs & Hbatch).
    apply M_bind_ok_inv in Hbatch as (all2 & s4 & Hextend & Hbatch).
    apply M_bind_ok_inv in Hbatch as ([] & s5 & _ & Hbatch).
    injection Hbatch as <- <-.
    assert (self s2 = self s) as Hself2.
    { revert Hpause. case_bool_decide; by intros [= <-]. }
    apply process_batch_empty_mapping in Hrs; [|by rewrite Hself2].
    unfold liftR in Hextend. rewrite (fold_extend_nothing _ _ Hrs) in Hextend.
    by injection Hextend as <- <-.
Qed.

(** A run of the pipeline that returns has stored no submission, with or
    without [fetch_runs]: contest parsing returns only with an empty id
    mapping, under which the parsing of any submission record raises. *)
Theorem parse_stores_no_submission (fetch_runs : bool) (s s' : Env) :
  _parse py_repr get_timestamp remote fetch_runs s = (Ok (), s') →
  _runs (self s') = [].
Proof.
  intros H. unfold _parse in H.
  apply M_bind_ok_inv in H as (groups & s1 & _ & H).
  apply M_bind_ok_inv in H as (? & s2 & _ & H).
  apply M_bind_ok_inv in H as (rank & s3 & _ & H).
  apply M_bind_ok_inv in H as ([] & s4 & Hcontest & H).
  apply M_bind_ok_inv in H as ([] & s5 & Hteams & H).
  destruct fetch_runs; cbn [negb] in H.
  - assert (_problem_ids (self s5) = []) as Hids.
    { unfold lift_self in Hcontest, Hteams.
      destruct (_parse_contest get_timestamp rank (self s3))
        as [r4 self4] eqn:Hc.
      injection Hcontest as -> <-. cbn [self trace] in Hteams.
      pose proof (parse_teams_problem_ids rank self4) as Ht.
      destruct (_parse_teams py_repr rank self4) as [r5 self5].
      injection Hteams as _ <-. cbn [snd self] in *. rewrite Ht.
      eapply parse_contest_ok_problem_ids. exact Hc. }
    unfold _parse_fetch_runs in H.
    apply M_bind_ok_inv in H as (s0 & s6 & Hget & H).
    injection Hget as -> ->.
    apply M_bind_ok_inv in H as (all & s7 & Hloop & H).
    apply batches_empty_mapping in Hloop as ->; [|done].
    unfold lift_self, modify in H. by injection H as <-.
  - unfold lift_self in H.
    destruct (make_fake_runs_cases py_repr rank (self s5)) as [Hr|[e Hr]];
      rewrite Hr in H; [|done].
    by injection H as <-.
Qed.
End no_submission.

Lemma parse_stores_no_submission_witness :
  _runs (self (_parse Examples.no_repr Examples.timestamps
                      Examples.quiet_contest_remote true
                      (mkEnv Examples.pta0 [])).2) = [].
Proof.
  apply (parse_stores_no_submission
           Examples.no_repr Examples.timestamps Examples.quiet_contest_remote
           true (mkEnv Examples.pta0 [])).
  vm_compute. reflexivity.
Defined.
